(** * Onboarding session tools (tools1.py): model and verification

  A shallow embedding of the session state and validation engine of
  [tools1.py]: the in-memory session store [sessions_data], the
  process-wide [current_session_id], the JSON record files, the
  [UserOnboarding] validation model and the callable tools built on
  them; and of the hooks of [agent1.py] that log what was said.

  Conventions of the embedding.
  - A Python [str] is a Rocq [string]: its text in UTF-8, so that an
    ASCII text is itself.  Lengths are counted in code points.
    Whitespace, digits and letter case are those of ASCII: a code point
    outside ASCII is taken to be neither whitespace nor a digit nor a
    cased letter, and where a statement depends on that it says so.
  - Python values that [json.load] can return, which are also the only
    values the tools build, form the type [pyval]; a number is an
    integer, a [dict] is an association list in insertion order.
  - A tool is a function from the world (store, current session,
    file system) to an outcome and a new world; an outcome is a
    returned value or a raised exception.  Output printed on the
    console is not part of the world and printing itself succeeds, but
    an expression evaluated for a [print] that can raise is kept.
  - What the third-party libraries compute ([EmailStr], the
    [pycountry] table, the text of a pydantic error, [str()] of a
    non-string) enters as a parameter of the section. *)

From Stdlib Require Import Ascii ZArith Bool Lia DecimalString.
From Stdlib Require String.
From stdpp Require Import base option list gmap strings.


(** ** Characters and strings *)

Module Str.

Definition code (c : ascii) : nat := nat_of_ascii c.

Definition between (lo hi : nat) (c : ascii) : bool :=
  (lo <=? code c) && (code c <=? hi).

(** Whitespace removed by pydantic's [strip_whitespace] (the Unicode
    White_Space property): tab, line feed, vertical tab, form feed,
    carriage return, space. *)
Definition is_white_space (c : ascii) : bool :=
  between 9 13 c || (code c =? 32).

(** Whitespace removed by Python's [str.strip()]: the above and the
    four separators U+001C..U+001F. *)
Definition py_isspace (c : ascii) : bool :=
  between 9 13 c || between 28 32 c.

Definition is_digit (c : ascii) : bool := between 48 57 c.
Definition is_digit_1_9 (c : ascii) : bool := between 49 57 c.
Definition is_upper (c : ascii) : bool := between 65 90 c.
Definition is_lower (c : ascii) : bool := between 97 122 c.

Definition lower_char (c : ascii) : ascii :=
  if is_upper c then ascii_of_nat (code c + 32) else c.
Definition upper_char (c : ascii) : ascii :=
  if is_lower c then ascii_of_nat (code c - 32) else c.

Fixpoint map (f : ascii -> ascii) (s : string) : string :=
  match s with
  | EmptyString => EmptyString
  | String c r => String (f c) (map f r)
  end.

Fixpoint all (p : ascii -> bool) (s : string) : bool :=
  match s with
  | EmptyString => true
  | String c r => p c && all p r
  end.

(** [len(s)]: the code points of a text, that is its bytes without the
    continuation bytes of UTF-8 *)
Definition is_continuation (c : ascii) : bool := between 128 191 c.

Fixpoint code_points (s : string) : nat :=
  match s with
  | EmptyString => 0
  | String c r =>
      if is_continuation c then code_points r else S (code_points r)
  end.

Definition is_empty (s : string) : bool :=
  match s with EmptyString => true | _ => false end.

(** [str.lower()] and [str.capitalize()], on the letters of ASCII. *)
Definition lower (s : string) : string := map lower_char s.
Definition capitalize (s : string) : string :=
  match s with
  | EmptyString => EmptyString
  | String c r => String (upper_char c) (lower r)
  end.

Fixpoint lstrip (sp : ascii -> bool) (s : string) : string :=
  match s with
  | EmptyString => EmptyString
  | String c r => if sp c then lstrip sp r else s
  end.

Fixpoint rstrip (sp : ascii -> bool) (s : string) : string :=
  match s with
  | EmptyString => EmptyString
  | String c r =>
      let r' := rstrip sp r in
      if sp c && is_empty r' then EmptyString else String c r'
  end.

Definition strip_with (sp : ascii -> bool) (s : string) : string :=
  rstrip sp (lstrip sp s).

(** [s.strip()] of Python; [trim] removes the whitespace that
    [strip_whitespace] of pydantic is documented to remove. *)
Definition strip (s : string) : string := strip_with py_isspace s.
Definition trim (s : string) : string := strip_with is_white_space s.

(** [s.startswith(p)] *)
Fixpoint startswith (p s : string) : bool :=
  match p, s with
  | EmptyString, _ => true
  | String a p', String b s' => Ascii.eqb a b && startswith p' s'
  | String _ _, EmptyString => false
  end.

(** [p in s] for two strings: [p] occurs in [s]. *)
Fixpoint contains (p s : string) : bool :=
  startswith p s ||
  match s with
  | EmptyString => false
  | String _ s' => contains p s'
  end.

(** [sep.join(parts)] *)
Fixpoint join (sep : string) (parts : list string) : string :=
  match parts with
  | [] => ""
  | [p] => p
  | p :: rest => p +:+ sep +:+ join sep rest
  end.


End Str.

(** ** Regular expressions

  The fragment of the pattern language the phone pattern is written
  in: character classes, concatenation, alternation and the empty
  word.  [r?] and [r{lo,hi}] are derived forms.  Matching is by
  backtracking with a continuation for the rest of the input. *)

Module Regex.

Inductive regex : Type :=
  | Eps
  | Class (p : ascii -> bool)
  | Cat (r1 r2 : regex)
  | Alt (r1 r2 : regex).

Definition Opt (r : regex) : regex := Alt r Eps.

Fixpoint Power (r : regex) (n : nat) : regex :=
  match n with
  | O => Eps
  | S n' => Cat r (Power r n')
  end.

(** at most [n] copies of [r], as many as possible first *)
Fixpoint UpTo (r : regex) (n : nat) : regex :=
  match n with
  | O => Eps
  | S n' => Opt (Cat r (UpTo r n'))
  end.

(** [r{lo,hi}] *)
Definition Repeat (r : regex) (lo hi : nat) : regex :=
  Cat (Power r lo) (UpTo r (hi - lo)).

Fixpoint accept (r : regex) (s : string) (k : string -> bool) : bool :=
  match r with
  | Eps => k s
  | Class p =>
      match s with
      | String c s' => p c && k s'
      | EmptyString => false
      end
  | Cat r1 r2 => accept r1 s (fun s' => accept r2 s' k)
  | Alt r1 r2 => accept r1 s k || accept r2 s k
  end.

(** a pattern anchored with [^] and [$] matches the whole input *)
Definition fullmatch (r : regex) (s : string) : bool :=
  accept r s Str.is_empty.

Definition Char (c : ascii) : regex := Class (Ascii.eqb c).

(** The words of a pattern, for comparison with the matcher. *)
Inductive matches : regex -> string -> Prop :=
| MEps : matches Eps ""
| MClass (p : ascii -> bool) (c : ascii) :
    p c = true -> matches (Class p) (String c "")
| MCat (r1 r2 : regex) (s1 s2 : string) :
    matches r1 s1 -> matches r2 s2 -> matches (Cat r1 r2) (s1 +:+ s2)
| MAltL (r1 r2 : regex) (s : string) :
    matches r1 s -> matches (Alt r1 r2) s
| MAltR (r1 r2 : regex) (s : string) :
    matches r2 s -> matches (Alt r1 r2) s.

End Regex.

(** ** Python values *)

#[warnings="-register-all"]
Inductive pyval : Type :=
  | PNone
  | PBool (b : bool)
  | PInt (z : Z)
  | PStr (s : string)
  | PList (l : list pyval)
  | PDict (d : list (string * pyval)).

Abbreviation pydict := (list (string * pyval)).

Inductive exn_class : Type :=
  | TypeError | AttributeError | OSError | JSONDecodeError | ValidationError.

(** An exception; [exn_str] is Python's [str(e)]. *)
Record exn : Type := Exn { exn_kind : exn_class; exn_str : string }.

Inductive result (A : Type) : Type :=
  | Ret (a : A)
  | Raise (e : exn).
Arguments Ret {A} a.
Arguments Raise {A} e.

Module Py.

Definition type_name (v : pyval) : string :=
  match v with
  | PNone => "NoneType"
  | PBool _ => "bool"
  | PInt _ => "int"
  | PStr _ => "str"
  | PList _ => "list"
  | PDict _ => "dict"
  end.

(** truth value of an object, as tested by [if v] and [not v] *)
Definition truthy (v : pyval) : bool :=
  match v with
  | PNone => false
  | PBool b => b
  | PInt z => negb (z =? 0)%Z
  | PStr s => negb (Str.is_empty s)
  | PList l => match l with [] => false | _ => true end
  | PDict d => match d with [] => false | _ => true end
  end.

Definition no_attribute (v : pyval) (attr : string) : exn :=
  Exn AttributeError
    ("'" +:+ type_name v +:+ "' object has no attribute '" +:+ attr +:+ "'").

(** [d.get(k)] as an option, [k in d], [d[k] = v] on a dict *)
Fixpoint dict_lookup (k : string) (d : pydict) : option pyval :=
  match d with
  | [] => None
  | (k', v) :: rest => if String.eqb k k' then Some v else dict_lookup k rest
  end.

Definition dict_has (k : string) (d : pydict) : bool :=
  match dict_lookup k d with Some _ => true | None => false end.

Fixpoint dict_set (k : string) (v : pyval) (d : pydict) : pydict :=
  match d with
  | [] => [(k, v)]
  | (k', v') :: rest =>
      if String.eqb k k' then (k, v) :: rest else (k', v') :: dict_set k v rest
  end.

Definition is_str (s : string) (v : pyval) : bool :=
  match v with PStr s' => String.eqb s s' | _ => false end.

(** [key in container] for a string key *)
Definition has_item (key : string) (container : pyval) : result bool :=
  match container with
  | PDict d => Ret (dict_has key d)
  | PList l => Ret (existsb (is_str key) l)
  | PStr s => Ret (Str.contains key s)
  | _ => Raise (Exn TypeError
           ("argument of type '" +:+ type_name container +:+ "' is not iterable"))
  end.

(** [len(v)] *)
Definition len (v : pyval) : result nat :=
  match v with
  | PStr s => Ret (Str.code_points s)
  | PList l => Ret (length l)
  | PDict d => Ret (length d)
  | _ => Raise (Exn TypeError
           ("object of type '" +:+ type_name v +:+ "' has no len()"))
  end.

(** [data.get(key, dflt)] *)
Definition get (data : pyval) (key : string) (dflt : pyval) : result pyval :=
  match data with
  | PDict d => Ret (default dflt (dict_lookup key d))
  | _ => Raise (no_attribute data "get")
  end.

(** [v.copy()] *)
Definition copy (v : pyval) : result pyval :=
  match v with
  | PDict _ | PList _ => Ret v
  | _ => Raise (no_attribute v "copy")
  end.

(** [container[key] = v] for a string key; only a dict takes it *)
Definition setitem (container : pyval) (key : string) (v : pyval)
  : result pydict :=
  match container with
  | PDict d => Ret (dict_set key v d)
  | PList _ =>
      Raise (Exn TypeError "list indices must be integers or slices, not str")
  | _ =>
      Raise (Exn TypeError
        ("'" +:+ type_name container +:+
         "' object does not support item assignment"))
  end.

(** [v.items()] *)
Definition items (v : pyval) : result pydict :=
  match v with
  | PDict d => Ret d
  | _ => Raise (no_attribute v "items")
  end.


End Py.

(** ** The world: session store, current session, record files *)

(** One entry of [sessions_data]: a dict with the two keys
  ["onboarding_state"] and ["conversation_log"].  Both values come from
  a record file after [load_session], so they are arbitrary values. *)
Record session : Type := Session {
  onboarding_state : pyval;
  conversation_log : pyval
  }.

(** The content of a file, as [json.load] sees it: text that parses to a
  value (the text [json.dump] writes for that value), or text that is
  rejected with the given message. *)
Inductive file : Type :=
  | FJson (v : pyval)
  | FCorrupt (msg : string).

(** A failing write: the message of the [OSError], and what the failed
  attempt leaves in the file ([None]: the file is untouched). *)
Record write_failure : Type := WriteFailure {
  write_msg : string;
  write_residue : option file
  }.

(** The file system, with the faults it will answer with: opening a path
  for reading may fail, and writing a path may fail. *)
Record filesystem : Type := FileSystem {
  files : gmap string file;
  read_fault : string -> option string;
  write_fault : string -> option write_failure
  }.

Record world : Type := World {
  sessions_data : gmap string session;
  current_session_id : string;
  disk : filesystem
  }.

Definition with_sessions (m : gmap string session) (w : world) : world :=
  {| sessions_data := m;
     current_session_id := current_session_id w;
     disk := disk w |}.

Definition with_files (m : gmap string file) (w : world) : world :=
  {| sessions_data := sessions_data w;
     current_session_id := current_session_id w;
     disk := {| files := m;
                read_fault := read_fault (disk w);
                write_fault := write_fault (disk w) |} |}.

(** ** Computations: state and exceptions *)

Definition M (A : Type) : Type := world -> result A * world.

Definition ret {A} (a : A) : M A := fun w => (Ret a, w).
Definition raise {A} (e : exn) : M A := fun w => (Raise e, w).
Definition lift {A} (r : result A) : M A := fun w => (r, w).
Definition gets {A} (f : world -> A) : M A := fun w => (Ret (f w), w).
Definition modify (f : world -> world) : M unit := fun w => (Ret tt, f w).

Definition bind {A B} (m : M A) (k : A -> M B) : M B :=
  fun w =>
    match m w with
    | (Ret a, w') => k a w'
    | (Raise e, w') => (Raise e, w')
    end.

(** [try: body except Exception as e: handler e]; what [body] did to the
  world before raising stays done. *)
Definition try_except {A} (body : M A) (handler : exn -> M A) : M A :=
  fun w =>
    match body w with
    | (Ret a, w') => (Ret a, w')
    | (Raise e, w') => handler e w'
    end.

Notation "x <- m ;; k" := (bind m (fun x => k))
  (at level 100, m at next level, right associativity).
Notation "m ;;; k" := (bind m (fun _ => k))
  (at level 100, right associativity).

(** ** Session store (tools1.py, lines 47-69) *)

(** An onboarding state with its four keys, in the order in which every
    such dict is built. *)
Definition onboarding_fields (n e p c : pyval) : pyval :=
  PDict [("name", n); ("email", e); ("phone", p); ("country", c)].

Definition empty_onboarding_state : pyval :=
  onboarding_fields PNone PNone PNone PNone.

Definition empty_session : session :=
  {| onboarding_state := empty_onboarding_state; conversation_log := PList [] |}.

Definition _get_session_data (session_id : string) : M session :=
  fun w =>
    match sessions_data w !! session_id with
    | Some s => (Ret s, w)
    | None =>
        (Ret empty_session,
         with_sessions (<[session_id := empty_session]> (sessions_data w)) w)
    end.

Definition _get_onboarding_state (session_id : string) : M pyval :=
  s <- _get_session_data session_id ;; ret (onboarding_state s).

Definition _get_conversation_log (session_id : string) : M pyval :=
  s <- _get_session_data session_id ;; ret (conversation_log s).

(** In-place updates of the two objects of a stored session. *)
Definition set_onboarding_state (session_id : string) (v : pyval) : M unit :=
  modify (fun w =>
    with_sessions
      (alter (fun s => Session v (conversation_log s)) session_id (sessions_data w)) w).

Definition set_conversation_log (session_id : string) (v : pyval) : M unit :=
  modify (fun w =>
    with_sessions
      (alter (fun s => Session (onboarding_state s) v) session_id (sessions_data w)) w).

(** The session that any operation observes for an identifier. *)
Definition session_of (w : world) (session_id : string) : session :=
  default empty_session (sessions_data w !! session_id).

(** ** File helpers (lines 76-140) *)

Definition _get_session_file (session_id : string) : string :=
  "session_" +:+ session_id +:+ ".json".

(** [os.path.exists(path)] *)
Definition path_exists (path : string) : M bool :=
  gets (fun w => match files (disk w) !! path with Some _ => true | None => false end).

(** [with open(path, "w") as f: json.dump(data, f)] *)
Definition write_json (path : string) (data : pyval) : M unit :=
  fun w =>
    match write_fault (disk w) path with
    | Some flt =>
        (Raise (Exn OSError (write_msg flt)),
         match write_residue flt with
         | Some f => with_files (<[path := f]> (files (disk w))) w
         | None => w
         end)
    | None => (Ret tt, with_files (<[path := FJson data]> (files (disk w))) w)
    end.

(** [with open(path, "r") as f: data = json.load(f)] *)
Definition read_json (path : string) : M pyval :=
  fun w =>
    match read_fault (disk w) path with
    | Some msg => (Raise (Exn OSError msg), w)
    | None =>
        match files (disk w) !! path with
        | Some (FJson v) => (Ret v, w)
        | Some (FCorrupt msg) => (Raise (Exn JSONDecodeError msg), w)
        | None =>
            (Raise (Exn OSError
               ("[Errno 2] No such file or directory: '" +:+ path +:+ "'")), w)
        end
    end.

(** The [data] dict that [save_session] dumps. *)
Definition record_of (session_id : string) (session_data : session) : pyval :=
  PDict [("session_id", PStr session_id);
         ("onboarding_data", onboarding_state session_data);
         ("conversation", conversation_log session_data)].

Definition save_session (session_id : string) : M string :=
  session_data <- _get_session_data session_id ;;
  let data := record_of session_id session_data in
  try_except
    (write_json (_get_session_file session_id) data ;;;
     (* the message count printed after the dump *)
     _ <- lift (Py.len (conversation_log session_data)) ;;
     ret ("Session " +:+ session_id +:+ " saved successfully"))
    (fun e => ret ("Failed to save session: " +:+ exn_str e)).

Definition load_session (session_id : string) : M string :=
  let file_path := _get_session_file session_id in
  try_except
    (found <- path_exists file_path ;;
     if found then
       data <- read_json file_path ;;
       ob <- lift (Py.get data "onboarding_data" empty_onboarding_state) ;;
       log <- lift (Py.get data "conversation" (PList [])) ;;
       modify (fun w =>
         with_sessions (<[session_id := Session ob log]> (sessions_data w)) w) ;;;
       (* the message count printed after the assignment *)
       _ <- lift (Py.len log) ;;
       ret ("Session " +:+ session_id +:+ " loaded successfully")
     else
       ret ("Session file not found for " +:+ session_id))
    (fun e => ret ("Failed to load session: " +:+ exn_str e)).

Definition reset_session (session_id : string) : M string :=
  modify (fun w =>
    with_sessions (<[session_id := empty_session]> (sessions_data w)) w) ;;;
  try_except
    (save_session session_id ;;;
     ret ("Session " +:+ session_id +:+ " reset successfully"))
    (fun e => ret ("Failed to reset session: " +:+ exn_str e)).

(** ** Session context (lines 179-184) *)

Definition set_current_session_id (session_id : string) : M unit :=
  modify (fun w =>
    {| sessions_data := sessions_data w;
       current_session_id := session_id;
       disk := disk w |}).

(** The state of a process that has just started: no session, the
  current session identifier still the empty string. *)
Definition fresh_process (fs : filesystem) : world :=
  {| sessions_data := ∅; current_session_id := ""; disk := fs |}.

(** ** Conversation logging (lines 189-241, 388-431) *)

Definition message_entry (speaker text timestamp : string) : pyval :=
  PDict [("speaker", PStr speaker); ("text", PStr text);
         ("timestamp", PStr timestamp)].

(** [conversation_log.append(entry)] on the log of a stored session *)
Definition append_entry (session_id : string) (log entry : pyval) : M unit :=
  match log with
  | PList l => set_conversation_log session_id (PList (l ++ [entry]))
  | _ => raise (Py.no_attribute log "append")
  end.

(** [now] is the text of [datetime.now()] read by the call. *)
Definition log_message_with_session
    (now : string) (session_id speaker text : string) : M string :=
  try_except
    (log <- _get_conversation_log session_id ;;
     append_entry session_id log (message_entry speaker text now) ;;;
     ret ("Message logged successfully for session " +:+ session_id))
    (fun e => ret ("Failed to log message: " +:+ exn_str e)).

Definition log_message (now : string) (speaker text : string) : M string :=
  session_id <- gets current_session_id ;;
  try_except
    (log <- _get_conversation_log session_id ;;
     append_entry session_id log (message_entry speaker text now) ;;;
     ret ("Message logged successfully for session " +:+ session_id))
    (fun e => ret ("Failed to log message: " +:+ exn_str e)).

Definition log_conversation_turn
    (now1 now2 : string) (user_message assistant_response : string) : M string :=
  session_id <- gets current_session_id ;;
  try_except
    (log <- _get_conversation_log session_id ;;
     (if negb (Str.is_empty (Str.strip user_message)) then
        append_entry session_id log
          (message_entry "user" (Str.strip user_message) now1)
      else ret tt) ;;;
     log' <- gets (fun w => conversation_log (session_of w session_id)) ;;
     (if negb (Str.is_empty (Str.strip assistant_response)) then
        append_entry session_id log'
          (message_entry "assistant" (Str.strip assistant_response) now2)
      else ret tt) ;;;
     save_session session_id ;;;
     ret ("Conversation turn logged successfully for session " +:+ session_id))
    (fun e => ret ("Failed to log conversation turn: " +:+ exn_str e)).

(** ** Validation and storage (lines 12-39, 247-366) *)

(** The phone pattern [^\+?[1-9]\d{1,14}$]: the digits, and the whole.
    [\d] is a digit of ASCII here; the pattern engine of pydantic takes
    the decimal digits of other scripts too. *)
Definition phone_digits : Regex.regex :=
  Regex.Cat (Regex.Class Str.is_digit_1_9)
            (Regex.Repeat (Regex.Class Str.is_digit) 1 14).

Definition phone_pattern : Regex.regex :=
  Regex.Cat (Regex.Opt (Regex.Char "+"%char)) phone_digits.

(** The source asks for [strip_whitespace=True] in [Field(...)] of the
    name and of the phone.  [Field] of pydantic 2, which the file is
    written for ([field_validator]), has no such argument: it keeps the
    word as extra schema data and validates the text as it came.  So
    neither rule trims. *)

(** [name]: [min_length=2], [max_length=100], on the text as given. *)
Definition name_rule (v : string) : bool :=
  (2 <=? Str.code_points v) && (Str.code_points v <=? 100).

(** [phone]: the pattern, on the text as given. *)
Definition phone_rule (v : string) : bool :=
  Regex.fullmatch phone_pattern v.

(** An [Optional[...]] string field: [None] passes, a string is checked
  by the rule, any other value is not a valid string. *)
Definition optional_str (rule : string -> bool) (v : pyval) : bool :=
  match v with
  | PNone => true
  | PStr s => rule s
  | _ => false
  end.

Section Tools.

(** [EmailStr]: whether the email-validator library accepts the text. *)
Variable email_ok : string -> bool.
(** The names of [pycountry.countries]. *)
Variable country_names : list string.
(** [str(e)] of the pydantic error raised for rejected data. *)
Variable validation_error_str : pydict -> string.
(** [str(v)] of a value that is not a string. *)
Variable py_repr : pyval -> string.

(** [validate_country]: [v.lower()] is looked up in the set of the
    lower-cased country names (lower case as [Str.lower] has it: of
    the letters A to Z). *)
Definition validate_country (v : string) : bool :=
  existsb (String.eqb (Str.lower v)) (List.map Str.lower country_names).

(** A keyword argument that is not given keeps its default [None],
    which is not validated; keys that are no field are ignored. *)
Definition field_value (data : pydict) (key : string) : pyval :=
  default PNone (Py.dict_lookup key data).

Definition model_valid (data : pydict) : bool :=
  optional_str name_rule (field_value data "name")
  && optional_str email_ok (field_value data "email")
  && optional_str phone_rule (field_value data "phone")
  && optional_str validate_country (field_value data "country").

(** [UserOnboarding] called with the items of [data] as its keyword
    arguments *)
Definition UserOnboarding (data : pydict) : result unit :=
  if model_valid data then Ret tt
  else Raise (Exn ValidationError (validation_error_str data)).

Definition invalid_field_message (field : string) : string :=
  "Invalid field: " +:+ field +:+ ". Must be one of: name, email, phone, country".

Definition validate_field (field value : string) : M string :=
  session_id <- gets current_session_id ;;
  onboarding_state <- _get_onboarding_state session_id ;;
  present <- lift (Py.has_item field onboarding_state) ;;
  if negb present then ret (invalid_field_message field)
  else
    temp_data <- lift (Py.copy onboarding_state) ;;
    temp_data <- lift (Py.setitem temp_data field (PStr value)) ;;
    try_except
      (lift (UserOnboarding temp_data) ;;;
       ret ("Valid " +:+ field +:+ ": " +:+ value))
      (fun e => ret ("Invalid " +:+ field +:+ ": " +:+ exn_str e)).

Definition store_field (field value : string) : M string :=
  session_id <- gets current_session_id ;;
  onboarding_state <- _get_onboarding_state session_id ;;
  present <- lift (Py.has_item field onboarding_state) ;;
  if negb present then ret (invalid_field_message field)
  else
    validation_result <- validate_field field value ;;
    if negb (Str.startswith "Valid" validation_result) then
      ret ("Cannot store invalid value: " +:+ validation_result)
    else
      d <- lift (Py.setitem onboarding_state field (PStr value)) ;;
      set_onboarding_state session_id (PDict d) ;;;
      ret (Str.capitalize field +:+ " stored successfully: " +:+ value).

Definition missing_fields (items : pydict) : list string :=
  List.map fst (List.filter (fun kv => negb (Py.truthy (snd kv))) items).

Definition is_onboarding_complete : M string :=
  session_id <- gets current_session_id ;;
  onboarding_state <- _get_onboarding_state session_id ;;
  items <- lift (Py.items onboarding_state) ;;
  match missing_fields items with
  | [] => ret "Onboarding complete - all fields filled"
  | missing =>
      ret ("Onboarding incomplete. Missing: " +:+ Str.join ", " missing)
  end.

(** a value inside an f-string *)
Definition format (v : pyval) : string :=
  match v with
  | PStr s => s
  | _ => py_repr v
  end.

Definition summary_part (kv : string * pyval) : string :=
  Str.capitalize (fst kv) +:+ ": " +:+ format (snd kv).

Definition get_summary : M string :=
  session_id <- gets current_session_id ;;
  onboarding_state <- _get_onboarding_state session_id ;;
  items <- lift (Py.items onboarding_state) ;;
  match List.filter (fun kv => Py.truthy (snd kv)) items with
  | [] => ret "No onboarding data collected yet"
  | filled_fields =>
      ret ("Collected data: " +:+ Str.join ", " (List.map summary_part filled_fields))
  end.

Definition state_part (kv : string * pyval) : string :=
  let status := if Py.truthy (snd kv) then format (snd kv) else "not provided" in
  Str.capitalize (fst kv) +:+ ": " +:+ status.

Definition get_current_state : M string :=
  session_id <- gets current_session_id ;;
  onboarding_state <- _get_onboarding_state session_id ;;
  items <- lift (Py.items onboarding_state) ;;
  ret ("Current onboarding state: " +:+ Str.join ", " (List.map state_part items)).

Definition save_current_session : M string :=
  session_id <- gets current_session_id ;; save_session session_id.

Definition reset_current_session : M string :=
  session_id <- gets current_session_id ;; reset_session session_id.

End Tools.

(** ** Sample instances of the library parameters

  Stand-ins for the third-party checks, used where a statement is
  evaluated on concrete data. *)

Module Sample.

(** a text with one [@], a non-empty local part, a dot in the domain
    and no space *)
Fixpoint split_at (s : string) : option (string * string) :=
  match s with
  | EmptyString => None
  | String c r =>
      if Ascii.eqb c "@"%char then Some (EmptyString, r)
      else match split_at r with
           | Some (a, b) => Some (String c a, b)
           | None => None
           end
  end.

Definition email_ok (s : string) : bool :=
  match split_at s with
  | Some (loc, dom) =>
      negb (Str.is_empty loc) && Str.contains "." dom
      && negb (Str.contains "@" dom) && negb (Str.contains " " s)
  | None => false
  end.

Definition country_names : list string :=
  ["Canada"; "France"; "India"; "Japan"].

Definition validation_error_str (_ : pydict) : string :=
  "1 validation error for UserOnboarding".

Definition py_repr (v : pyval) : string :=
  "<" +:+ Py.type_name v +:+ ">".

Definition no_faults : filesystem :=
  {| files := ∅; read_fault := fun _ => None; write_fault := fun _ => None |}.

End Sample.

(** [_get_session_data] seen from outside: the store after the first
  access of an identifier. *)
Definition touch (session_id : string) (w : world) : world :=
  match sessions_data w !! session_id with
  | Some _ => w
  | None => with_sessions (<[session_id := empty_session]> (sessions_data w)) w
  end.


(** ** Notions used to state the properties *)

(** The phone format in words: an optional leading plus sign, then
    between 2 and 15 decimal digits of which the first is not zero. *)
Definition international_format (s : string) : Prop :=
  exists sign digits : string,
    s = sign +:+ digits
    /\ (sign = "" \/ sign = "+")
    /\ Str.all Str.is_digit digits = true
    /\ (exists c r, digits = String c r /\ Str.is_digit_1_9 c = true)
    /\ 2 <= String.length digits <= 15.

(** A string is blank when it is empty or consists of whitespace only. *)
Definition blank (s : string) : bool := Str.all Str.py_isspace s.

(** The validation result is read the way [store_field] reads it: it is
    an acceptance when it is returned and starts with ["Valid"]. *)
Definition rejected (r : result string) : Prop :=
  match r with
  | Ret s => Str.startswith "Valid" s = false
  | Raise _ => True
  end.

(** The ways [store_field] ends without storing. *)
Definition refused (field : string) (r : result string) : Prop :=
  match r with
  | Ret s =>
      s = invalid_field_message field
      \/ exists reason, s = "Cannot store invalid value: " +:+ reason
  | Raise _ => True
  end.

Definition is_field (f : string) : Prop :=
  f = "name" \/ f = "email" \/ f = "phone" \/ f = "country".

(** An optional string as a Python value, and whether it counts as
    filled in a truth test. *)
Definition opt_str (o : option string) : pyval :=
  match o with
  | Some s => PStr s
  | None => PNone
  end.

Definition filled (o : option string) : bool :=
  match o with
  | Some s => negb (Str.is_empty s)
  | None => false
  end.

Definition unfilled_name (key : string) (o : option string) : list string :=
  if filled o then [] else [key].

(** A process restart: the in-memory store is lost, the files stay. *)
Definition restart (w : world) : world := fresh_process (disk w).

(** The world after a successful [store_field]. *)
Definition stored_world (f v : string) (d : pydict) (w : world) : world :=
  let sid := current_session_id w in
  with_sessions
    (alter (fun s => Session (PDict (Py.dict_set f (PStr v) d)) (conversation_log s))
       sid (sessions_data (touch sid w)))
    (touch sid w).

Section Readings.

Variable email_ok : string -> bool.
Variable country_names : list string.
Variable validation_error_str : pydict -> string.

(** What [validate_field] returns, as a function of the onboarding state
    object of the current session. *)
Definition validate_against (ob : pyval) (field value : string) : result string :=
  match Py.has_item field ob with
  | Raise e => Raise e
  | Ret false => Ret (invalid_field_message field)
  | Ret true =>
      match Py.copy ob with
      | Raise e => Raise e
      | Ret temp_data =>
          match Py.setitem temp_data field (PStr value) with
          | Raise e => Raise e
          | Ret d =>
              if model_valid email_ok country_names d
              then Ret ("Valid " +:+ field +:+ ": " +:+ value)
              else Ret ("Invalid " +:+ field +:+ ": " +:+ validation_error_str d)
          end
      end
  end.

End Readings.

(** ** Worlds and records used in the examples *)

Module Scenario.

Definition with_current (sid : string) (w : world) : world :=
  {| sessions_data := sessions_data w;
     current_session_id := sid;
     disk := disk w |}.

(** a running process with one session, never saved *)
Definition unsaved_session : world :=
  {| sessions_data :=
       {[ "s1" := {| onboarding_state :=
                       onboarding_fields (PStr "Al") PNone PNone PNone;
                     conversation_log := PList [] |} ]};
     current_session_id := "s1";
     disk := Sample.no_faults |}.

(** a session in which every field holds a string, the name an empty one *)
Definition empty_name_session : world :=
  {| sessions_data :=
       {[ "s1" := {| onboarding_state :=
                       onboarding_fields (PStr "") (PStr "al@example.com")
                         (PStr "+14155551234") (PStr "Canada");
                     conversation_log := PList [] |} ]};
     current_session_id := "s1";
     disk := Sample.no_faults |}.

(** a session with three fields stored and one message logged *)
Definition busy_session : world :=
  {| sessions_data :=
       {[ "s1" := {| onboarding_state :=
                       onboarding_fields (PStr "Al") (PStr "al@example.com")
                         PNone (PStr "Canada");
                     conversation_log :=
                       PList [message_entry "user" "hello" "2025-01-01 10:00:00"] |} ]};
     current_session_id := "s1";
     disk := Sample.no_faults |}.

Definition on_disk (path : string) (f : file) : filesystem :=
  {| files := {[ path := f ]};
     read_fault := fun _ => None;
     write_fault := fun _ => None |}.

(** a record whose [onboarding_data] object holds the name only *)
Definition partial_record : pyval :=
  PDict [("session_id", PStr "s1");
         ("onboarding_data", PDict [("name", PStr "Al")]);
         ("conversation", PList [])].

(** a record whose [onboarding_data] is [null] *)
Definition null_record : pyval :=
  PDict [("session_id", PStr "s1");
         ("onboarding_data", PNone);
         ("conversation", PList [])].

(** a record with no [onboarding_data] and no [conversation] at all *)
Definition bare_record : pyval := PDict [("session_id", PStr "s1")].

(** a process that has just started, with one record file on disk *)
Definition started_with (record : file) : world :=
  with_current "s1" (fresh_process (on_disk "session_s1.json" record)).

(** a disk on which every write fails and leaves an empty file *)
Definition full_disk : filesystem :=
  {| files := ∅;
     read_fault := fun _ => None;
     write_fault := fun _ =>
       Some {| write_msg := "[Errno 28] No space left on device";
               write_residue :=
                 Some (FCorrupt "Expecting value: line 1 column 1 (char 0)") |} |}.

End Scenario.

(** ** The remaining tools and the hooks of the agent *)

(** [force_save_session] (tools1.py, lines 433-448): the result of
    [save_session] is dropped. *)
Definition force_save_session : M string :=
  session_id <- gets current_session_id ;;
  try_except
    (_ <- save_session session_id ;;
     ret ("Session " +:+ session_id +:+ " force saved successfully"))
    (fun e => ret ("Failed to force save session: " +:+ exn_str e)).

(** [str(n)] of a natural number *)
Definition decimal (n : nat) : string :=
  NilEmpty.string_of_uint (Nat.to_uint n).

Definition newline : string := String (ascii_of_nat 10) "".

(** [for ... in v]: the items a value yields when iterated *)
Fixpoint chars (s : string) : list pyval :=
  match s with
  | EmptyString => []
  | String c r => PStr (String c "") :: chars r
  end.

Definition iterate (v : pyval) : result (list pyval) :=
  match v with
  | PList l => Ret l
  | PStr s => Ret (chars s)
  | PDict d => Ret (List.map (fun kv => PStr (fst kv)) d)
  | _ => Raise (Exn TypeError
           ("'" +:+ Py.type_name v +:+ "' object is not iterable"))
  end.

Section History.

Variable py_repr : pyval -> string.

(** one line of the history, for the entry at index [i] *)
Definition history_line (i : nat) (speaker text timestamp : pyval) : string :=
  decimal (i + 1) +:+ ". [" +:+ format py_repr speaker +:+ "] "
  +:+ format py_repr text +:+ " (at " +:+ format py_repr timestamp +:+ ")".

(** the line for an entry that is a dict, with the defaults of its
    three [entry.get] calls *)
Definition entry_line (i : nat) (d : pydict) : string :=
  history_line i
    (default (PStr "unknown") (Py.dict_lookup "speaker" d))
    (default (PStr "") (Py.dict_lookup "text" d))
    (default (PStr "") (Py.dict_lookup "timestamp" d)).

(** the loop over [enumerate(conversation_log)], from index [i] on *)
Fixpoint history_parts (i : nat) (entries : list pyval) : result (list string) :=
  match entries with
  | [] => Ret []
  | entry :: rest =>
      match Py.get entry "speaker" (PStr "unknown") with
      | Raise e => Raise e
      | Ret speaker =>
          match Py.get entry "text" (PStr "") with
          | Raise e => Raise e
          | Ret text =>
              match Py.get entry "timestamp" (PStr "") with
              | Raise e => Raise e
              | Ret timestamp =>
                  match history_parts (S i) rest with
                  | Raise e => Raise e
                  | Ret parts =>
                      Ret (history_line i speaker text timestamp :: parts)
                  end
              end
          end
      end
  end.

(** [get_conversation_history] (lines 450-473) *)
Definition get_conversation_history : M string :=
  session_id <- gets current_session_id ;;
  try_except
    (log <- _get_conversation_log session_id ;;
     if negb (Py.truthy log) then ret "No conversation history yet"
     else
       entries <- lift (iterate log) ;;
       history <- lift (history_parts 0 entries) ;;
       n <- lift (Py.len log) ;;
       ret ("Conversation history (" +:+ decimal n +:+ " messages):"
            +:+ newline +:+ Str.join newline history))
    (fun e => ret ("Failed to get conversation history: " +:+ exn_str e)).

End History.

(** *** agent1.py *)

(** What the hooks read of a participant: [is_local], and the identity,
    which [getattr(participant, 'identity', '')] replaces by the empty
    string when the attribute is absent. *)
Record participant : Type := Participant {
  is_local : bool;
  identity : option string
}.

Definition participant_identity (p : participant) : string :=
  default "" (identity p).


(** the speaker [on_participant_speech_end] decides on (line 93) *)
Definition speech_end_speaker (p : participant) : string :=
  if is_local p || Str.contains "agent" (Str.lower (participant_identity p))
  then "assistant" else "user".


Definition on_participant_speech_end
    (self_session_id now : string) (p : participant) (text : string) : M unit :=
  try_except
    (log_message_with_session now self_session_id (speech_end_speaker p) text ;;;
     save_session self_session_id ;;;
     ret tt)
    (fun _ => ret tt).

Definition on_agent_speech_end (self_session_id now text : string) : M unit :=
  try_except
    (log_message_with_session now self_session_id "assistant" text ;;;
     save_session self_session_id ;;;
     ret tt)
    (fun _ => ret tt).

Definition on_user_speech_end (self_session_id now text : string) : M unit :=
  try_except
    (log_message_with_session now self_session_id "user" text ;;;
     save_session self_session_id ;;;
     ret tt)
    (fun _ => ret tt).



(** The keys of a dict, in order. *)
Definition keys (d : pydict) : list string := List.map fst d.

(** What [save_session] leaves in the record file of a session ([None]:
    the file is not touched), and the world after the call. *)
Definition written_file (sid : string) (w : world) : option file :=
  match write_fault (disk w) (_get_session_file sid) with
  | Some flt => write_residue flt
  | None => Some (FJson (record_of sid (session_of w sid)))
  end.

Definition after_save (sid : string) (w : world) : world :=
  match written_file sid w with
  | Some f =>
      with_files (<[_get_session_file sid := f]> (files (disk w))) (touch sid w)
  | None => touch sid w
  end.

(** The world after an entry is appended to the list [l] of a session. *)
Definition after_append (sid : string) (l : list pyval) (entry : pyval)
    (w : world) : world :=
  with_sessions
    (alter (fun s => Session (onboarding_state s) (PList (l ++ [entry])))
       sid (sessions_data (touch sid w)))
    (touch sid w).

(** *** More worlds for the examples *)

Module Scenario2.

(** a session as [load_session] leaves it for a record with
    ["conversation": null] *)
Definition broken_log_session : world :=
  {| sessions_data :=
       {[ "s1" := {| onboarding_state :=
                       onboarding_fields (PStr "Al") PNone PNone PNone;
                     conversation_log := PNone |} ]};
     current_session_id := "s1";
     disk := Sample.no_faults |}.

(** a session as [load_session] leaves it for a record with an email
    that is none *)
Definition invalid_email_session : world :=
  {| sessions_data :=
       {[ "s1" := {| onboarding_state :=
                       onboarding_fields PNone (PStr "nobody") PNone PNone;
                     conversation_log := PList [] |} ]};
     current_session_id := "s1";
     disk := Sample.no_faults |}.

(** a record whose [conversation] is [null] *)
Definition unsized_record : pyval :=
  PDict [("session_id", PStr "s1");
         ("onboarding_data", onboarding_fields (PStr "Bo") PNone PNone PNone);
         ("conversation", PNone)].

(** a running process that holds the session of [Scenario.busy_session]
    in memory, with one record file on disk *)
Definition running_with (record : file) : world :=
  {| sessions_data := sessions_data Scenario.busy_session;
     current_session_id := "s1";
     disk := Scenario.on_disk "session_s1.json" record |}.

Definition remote_assistant : participant :=
  {| is_local := false; identity := Some "Voice-Assistant-7" |}.

Definition hello_entry : pydict :=
  [("speaker", PStr "user"); ("text", PStr "hello");
   ("timestamp", PStr "2025-01-01 10:00:00")].

End Scenario2.
(** ** Basic facts about strings and dicts *)

Lemma dict_lookup_set_eq (k : string) (x : pyval) (d : pydict) :
  Py.dict_lookup k (Py.dict_set k x d) = Some x.
Proof.
  induction d as [|[k' v'] d IH]; simpl.
  - by rewrite String.eqb_refl.
  - destruct (String.eqb k k') eqn:E; simpl.
    + by rewrite String.eqb_refl.
    + by rewrite E.
Qed.

Lemma dict_lookup_set_ne (k k' : string) (x : pyval) (d : pydict) :
  k ≠ k' -> Py.dict_lookup k' (Py.dict_set k x d) = Py.dict_lookup k' d.
Proof.
  intros Hne. induction d as [|[k0 v0] d IH]; simpl.
  - destruct (String.eqb k' k) eqn:E; [|done].
    apply String.eqb_eq in E. congruence.
  - destruct (String.eqb k k0) eqn:E; simpl.
    + apply String.eqb_eq in E. subst k0.
      destruct (String.eqb k' k) eqn:E'; [|done].
      apply String.eqb_eq in E'. congruence.
    + by rewrite IH.
Qed.

Lemma dict_set_in (k : string) (x : pyval) (d : pydict) :
  In (k, x) (Py.dict_set k x d).
Proof.
  induction d as [|[k' v'] d IH]; simpl; [by left|].
  destruct (String.eqb k k'); simpl; [by left | by right].
Qed.

Lemma is_empty_true (s : string) : Str.is_empty s = true <-> s = "".
Proof. by destruct s. Qed.


(** ** The session store *)

Lemma get_session_data_eq (sid : string) (w : world) :
  _get_session_data sid w = (Ret (session_of w sid), touch sid w).
Proof.
  unfold _get_session_data, session_of, touch.
  by destruct (sessions_data w !! sid).
Qed.

Lemma lookup_touch (sid : string) (w : world) :
  sessions_data (touch sid w) !! sid = Some (session_of w sid).
Proof.
  unfold touch, session_of.
  destruct (sessions_data w !! sid) eqn:E; simpl; [done|].
  by rewrite lookup_insert_eq.
Qed.

Lemma session_of_touch (sid sid' : string) (w : world) :
  session_of (touch sid w) sid' = session_of w sid'.
Proof.
  unfold touch, session_of.
  destruct (sessions_data w !! sid) eqn:E; simpl; [done|].
  destruct (decide (sid = sid')) as [->|Hne].
  - by rewrite lookup_insert_eq, E.
  - by rewrite lookup_insert_ne.
Qed.

Lemma touch_known (sid : string) (w : world) :
  is_Some (sessions_data w !! sid) -> touch sid w = w.
Proof. intros [s Hs]. unfold touch. by rewrite Hs. Qed.

Lemma touch_touch (sid : string) (w : world) :
  touch sid (touch sid w) = touch sid w.
Proof. apply touch_known. rewrite lookup_touch. eauto. Qed.

Lemma touch_current (sid : string) (w : world) :
  current_session_id (touch sid w) = current_session_id w.
Proof. unfold touch. by destruct (sessions_data w !! sid). Qed.

Lemma touch_disk (sid : string) (w : world) :
  disk (touch sid w) = disk w.
Proof. unfold touch. by destruct (sessions_data w !! sid). Qed.

Lemma get_onboarding_state_eq (sid : string) (w : world) :
  _get_onboarding_state sid w =
  (Ret (onboarding_state (session_of w sid)), touch sid w).
Proof.
  unfold _get_onboarding_state, bind, ret. by rewrite get_session_data_eq.
Qed.

Lemma get_conversation_log_eq (sid : string) (w : world) :
  _get_conversation_log sid w =
  (Ret (conversation_log (session_of w sid)), touch sid w).
Proof.
  unfold _get_conversation_log, bind, ret. by rewrite get_session_data_eq.
Qed.

(** ** Trimming *)

Lemma append_cons (c : ascii) (s t : string) :
  String c s +:+ t = String c (s +:+ t).
Proof. reflexivity. Qed.

Lemma append_empty_r (s : string) : s +:+ "" = s.
Proof. induction s as [|c s IH]; [done|]. by rewrite append_cons, IH. Qed.

Lemma append_assoc (a b c : string) : (a +:+ b) +:+ c = a +:+ (b +:+ c).
Proof. induction a as [|x a IH]; [done|]. by rewrite !append_cons, IH. Qed.

Lemma append_empty (a b : string) : a +:+ b = "" -> a = "" /\ b = "".
Proof. by destruct a. Qed.







(** ** The matcher against the words of a pattern *)

Lemma accept_matches (r : Regex.regex) :
  forall (s : string) (k : string -> bool),
    Regex.accept r s k = true <->
    exists s1 s2, s = s1 +:+ s2 /\ Regex.matches r s1 /\ k s2 = true.
Proof.
  induction r as [|p|r1 IH1 r2 IH2|r1 IH1 r2 IH2]; intros s k; simpl.
  - split.
    + intros H. exists "", s. split; [done|]. split; [constructor|done].
    + intros (s1 & s2 & -> & Hm & Hk). inversion Hm; subst. exact Hk.
  - split.
    + destruct s as [|c s]; [done|]. intros H.
      apply andb_true_iff in H as [Hp Hk].
      exists (String c ""), s. split; [done|]. split; [by constructor|done].
    + intros (s1 & s2 & -> & Hm & Hk).
      inversion Hm as [|p' c Hp| | |]; subst.
      change (String c "" +:+ s2) with (String c s2). cbv beta iota.
      by rewrite Hp, Hk.
  - rewrite IH1. split.
    + intros (s1 & s' & -> & Hm1 & H2). apply IH2 in H2.
      destruct H2 as (s2 & s3 & -> & Hm2 & Hk).
      exists (s1 +:+ s2), s3. rewrite append_assoc.
      split; [done|]. split; [by constructor|done].
    + intros (s12 & s3 & -> & Hm & Hk). inversion Hm; subst.
      exists s1, (s2 +:+ s3). rewrite append_assoc.
      split; [done|]. split; [done|]. apply IH2. eauto.
  - rewrite orb_true_iff, IH1, IH2. split.
    + intros [(s1 & s2 & -> & Hm & Hk)|(s1 & s2 & -> & Hm & Hk)];
        exists s1, s2; (split; [done|]); (split; [|done]).
      * by apply Regex.MAltL.
      * by apply Regex.MAltR.
    + intros (s1 & s2 & -> & Hm & Hk). inversion Hm; subst; [left|right]; eauto.
Qed.

(** An anchored pattern accepts a text exactly when the text is one of
    its words. *)
Lemma fullmatch_matches (r : Regex.regex) (s : string) :
  Regex.fullmatch r s = true <-> Regex.matches r s.
Proof.
  unfold Regex.fullmatch. rewrite accept_matches. split.
  - intros (s1 & s2 & -> & Hm & Hk). apply is_empty_true in Hk. subst s2.
    by rewrite append_empty_r.
  - intros Hm. exists s, "". by rewrite append_empty_r.
Qed.

(** ** The patterns of the validation model *)

Lemma digit_1_9_is_digit (c : ascii) :
  Str.is_digit_1_9 c = true -> Str.is_digit c = true.
Proof.
  unfold Str.is_digit_1_9, Str.is_digit, Str.between.
  rewrite !andb_true_iff, !Nat.leb_le. lia.
Qed.

(** At most [n] characters of a class, up to the end of the input. *)
Lemma accept_upto_class (p : ascii -> bool) (n : nat) (s : string) :
  Regex.accept (Regex.UpTo (Regex.Class p) n) s Str.is_empty
  = Str.all p s && (String.length s <=? n).
Proof.
  revert s. induction n as [|n IH]; intros s.
  - destruct s; simpl; [done|]. by rewrite andb_false_r.
  - destruct s as [|c s]; [done|].
    change (Regex.accept (Regex.UpTo (Regex.Class p) (S n)) (String c s) Str.is_empty)
      with (p c && Regex.accept (Regex.UpTo (Regex.Class p) n) s Str.is_empty
            || false).
    rewrite orb_false_r, IH. simpl. by rewrite andb_assoc.
Qed.

Lemma accept_phone_digits (s : string) :
  Regex.accept phone_digits s Str.is_empty
  = match s with
    | String c (String c' r) =>
        Str.is_digit_1_9 c && (Str.is_digit c' &&
          (Str.all Str.is_digit r && (String.length r <=? 13)))
    | _ => false
    end.
Proof.
  destruct s as [|c [|c' r]]; [done | simpl; by rewrite andb_false_r |].
  change (Regex.accept phone_digits (String c (String c' r)) Str.is_empty)
    with (Str.is_digit_1_9 c && (Str.is_digit c' &&
            Regex.accept (Regex.UpTo (Regex.Class Str.is_digit) 13) r Str.is_empty)).
  by rewrite accept_upto_class.
Qed.

Lemma fullmatch_phone_pattern (s : string) :
  Regex.fullmatch phone_pattern s
  = (match s with
     | String c r =>
         Ascii.eqb "+"%char c && Regex.accept phone_digits r Str.is_empty
     | EmptyString => false
     end) || Regex.accept phone_digits s Str.is_empty.
Proof. by destruct s. Qed.

Lemma phone_digits_format (s : string) :
  Regex.accept phone_digits s Str.is_empty = true <->
  Str.all Str.is_digit s = true
  /\ (exists c r, s = String c r /\ Str.is_digit_1_9 c = true)
  /\ 2 <= String.length s <= 15.
Proof.
  rewrite accept_phone_digits. split.
  - destruct s as [|c [|c' r]]; [done..|].
    rewrite !andb_true_iff, Nat.leb_le. intros (H1 & H2 & H3 & H4).
    split; [|split].
    + simpl. by rewrite (digit_1_9_is_digit c H1), H2, H3.
    + eauto.
    + simpl. lia.
  - intros (Hall & (c & r & -> & Hc) & Hlen).
    destruct r as [|c' r]; [simpl in Hlen; lia|].
    simpl in Hall, Hlen. apply andb_true_iff in Hall as [_ Hall].
    apply andb_true_iff in Hall as [Hc' Hall].
    rewrite Hc, Hc', Hall. simpl. apply Nat.leb_le. lia.
Qed.

Lemma plus_is_no_digit (c : ascii) :
  Ascii.eqb "+"%char c = true -> Str.is_digit_1_9 c = false.
Proof. intros H. apply Ascii.eqb_eq in H. by subst c. Qed.

(** The pattern accepts exactly the texts in the format the words
    describe. *)
Lemma phone_pattern_format (s : string) :
  Regex.fullmatch phone_pattern s = true <-> international_format s.
Proof.
  rewrite fullmatch_phone_pattern, orb_true_iff. split.
  - intros [H|H].
    + destruct s as [|c r]; [done|].
      apply andb_true_iff in H as [Hc H]. apply Ascii.eqb_eq in Hc. subst c.
      apply phone_digits_format in H as (Hall & Hfirst & Hlen).
      exists "+", r. eauto 10.
    + apply phone_digits_format in H as (Hall & Hfirst & Hlen).
      exists "", s. eauto 10.
  - intros (sign & digits & -> & [->| ->] & Hall & Hfirst & Hlen).
    + right. by apply phone_digits_format.
    + left. simpl. by apply phone_digits_format.
Qed.

Lemma name_rule_length (v : string) :
  name_rule v = true <-> 2 <= Str.code_points v <= 100.
Proof.
  unfold name_rule. by rewrite andb_true_iff, !Nat.leb_le.
Qed.

Lemma name_rule_nonempty (v : string) : name_rule v = true -> v <> "".
Proof. by intros H ->. Qed.

Lemma phone_rule_nonempty (v : string) : phone_rule v = true -> v <> "".
Proof. by intros H ->. Qed.

(** ** Validation and storage *)

Section ToolFacts.

Variable email_ok : string -> bool.
Variable country_names : list string.
Variable validation_error_str : pydict -> string.
Variable py_repr : pyval -> string.

Local Abbreviation validate := (validate_field email_ok country_names validation_error_str).
Local Abbreviation store := (store_field email_ok country_names validation_error_str).
Local Abbreviation outcome := (validate_against email_ok country_names validation_error_str).
Local Abbreviation valid := (model_valid email_ok country_names).

Lemma validate_field_eq (f v : string) (w : world) :
  validate f v w =
  (outcome (onboarding_state (session_of w (current_session_id w))) f v,
   touch (current_session_id w) w).
Proof.
  unfold validate_field, validate_against, bind, gets, lift, try_except, ret.
  rewrite get_onboarding_state_eq.
  destruct (Py.has_item f _) as [[|]|e]; simpl; try done.
  destruct (Py.copy _) as [t|e]; simpl; try done.
  destruct (Py.setitem t f (PStr v)) as [d|e]; simpl; try done.
  unfold UserOnboarding. by destruct (valid d).
Qed.

Lemma outcome_accepts (ob : pyval) (f v : string) :
  outcome ob f v = Ret ("Valid " +:+ f +:+ ": " +:+ v) <->
  exists d, ob = PDict d /\ Py.dict_has f d = true
            /\ valid (Py.dict_set f (PStr v) d) = true.
Proof.
  unfold validate_against. split.
  - destruct ob as [| | |s|l|d]; simpl; try done.
    + by destruct (Str.contains f s).
    + by destruct (existsb _ l).
    + destruct (Py.dict_has f d) eqn:Hf; [|done].
      destruct (valid _) eqn:Hv; [|done]. eauto.
  - intros (d & -> & Hf & Hv). simpl. by rewrite Hf, Hv.
Qed.

Lemma outcome_cases (ob : pyval) (f v : string) :
  outcome ob f v = Ret ("Valid " +:+ f +:+ ": " +:+ v)
  \/ rejected (outcome ob f v).
Proof.
  unfold validate_against.
  destruct (Py.has_item f ob) as [[|]|e]; simpl; auto.
  destruct (Py.copy ob) as [t|e]; simpl; auto.
  destruct (Py.setitem t f (PStr v)) as [d|e]; simpl; auto.
  destruct (valid d); simpl; auto.
Qed.

Lemma rejected_not_accepted (r : result string) (f v : string) :
  rejected r -> r <> Ret ("Valid " +:+ f +:+ ": " +:+ v).
Proof. intros H ->. simpl in H. done. Qed.


Lemma valid_name_nonempty (d : pydict) (v : string) :
  valid (Py.dict_set "name" (PStr v) d) = true -> v <> "".
Proof.
  unfold model_valid, field_value. rewrite dict_lookup_set_eq. simpl.
  rewrite !andb_true_iff. intros [[[H _] _] _]. by apply name_rule_nonempty.
Qed.

Lemma valid_phone_nonempty (d : pydict) (v : string) :
  valid (Py.dict_set "phone" (PStr v) d) = true -> v <> "".
Proof.
  unfold model_valid, field_value. rewrite dict_lookup_set_eq. simpl.
  rewrite !andb_true_iff. intros [[_ H] _]. by apply phone_rule_nonempty.
Qed.

Lemma valid_email_nonempty (d : pydict) (v : string) :
  email_ok "" = false ->
  valid (Py.dict_set "email" (PStr v) d) = true -> v <> "".
Proof.
  intros He. unfold model_valid, field_value. rewrite dict_lookup_set_eq. simpl.
  rewrite !andb_true_iff. intros [[[_ H] _] _] ->. congruence.
Qed.

Lemma lower_empty (s : string) : Str.lower s = "" -> s = "".
Proof. by destruct s. Qed.

Lemma validate_country_empty :
  ~ In "" country_names -> validate_country country_names "" = false.
Proof.
  unfold validate_country. induction country_names as [|n ns IH]; [done|].
  intros Hn. cbn [List.map existsb]. rewrite IH by (simpl in Hn; tauto).
  rewrite orb_false_r. apply not_true_is_false. intros E.
  apply String.eqb_eq in E. symmetry in E. apply lower_empty in E.
  subst n. apply Hn. by left.
Qed.

Lemma valid_country_nonempty (d : pydict) (v : string) :
  ~ In "" country_names ->
  valid (Py.dict_set "country" (PStr v) d) = true -> v <> "".
Proof.
  intros Hc. unfold model_valid, field_value. rewrite dict_lookup_set_eq. simpl.
  rewrite !andb_true_iff. intros [_ H] ->.
  rewrite validate_country_empty in H by exact Hc. done.
Qed.

Lemma get_current_state_eq (w : world) (d : pydict) :
  onboarding_state (session_of w (current_session_id w)) = PDict d ->
  fst (get_current_state py_repr w)
  = Ret ("Current onboarding state: "
         +:+ Str.join ", " (List.map (state_part py_repr) d)).
Proof.
  intros Hd. unfold get_current_state, bind, gets, lift, ret.
  rewrite get_onboarding_state_eq, Hd. done.
Qed.

Lemma store_field_accepted (f v : string) (w : world) (d : pydict) :
  onboarding_state (session_of w (current_session_id w)) = PDict d ->
  Py.dict_has f d = true ->
  valid (Py.dict_set f (PStr v) d) = true ->
  store f v w =
  (Ret (Str.capitalize f +:+ " stored successfully: " +:+ v), stored_world f v d w).
Proof.
  intros Hob Hf Hv.
  assert (Hacc : outcome (PDict d) f v = Ret ("Valid " +:+ f +:+ ": " +:+ v))
    by (apply outcome_accepts; eauto).
  unfold store_field, bind, gets, lift, ret.
  rewrite get_onboarding_state_eq, Hob. cbn [Py.has_item]. rewrite Hf. cbn [negb].
  rewrite validate_field_eq, touch_current, session_of_touch, Hob, Hacc, touch_touch.
  change (Str.startswith "Valid" ("Valid " +:+ f +:+ ": " +:+ v)) with true.
  reflexivity.
Qed.

Lemma store_field_rejected (f v : string) (w : world) :
  rejected (outcome (onboarding_state (session_of w (current_session_id w))) f v) ->
  refused f (fst (store f v w))
  /\ snd (store f v w) = touch (current_session_id w) w.
Proof.
  intros Hrej. unfold store_field, bind, gets, lift, ret.
  rewrite get_onboarding_state_eq.
  set (ob := onboarding_state (session_of w (current_session_id w))) in *.
  destruct (Py.has_item f ob) as [[|]|e] eqn:Hc; cbn [negb]; simpl; auto.
  rewrite validate_field_eq, touch_current, session_of_touch, touch_touch.
  fold ob. destruct (outcome ob f v) as [s|e]; simpl; auto.
  simpl in Hrej. rewrite Hrej. simpl. eauto.
Qed.

Lemma session_of_stored_world (f v : string) (d : pydict) (w : world) :
  session_of (stored_world f v d w) (current_session_id w)
  = Session (PDict (Py.dict_set f (PStr v) d))
      (conversation_log (session_of w (current_session_id w))).
Proof.
  unfold stored_world, session_of at 1. simpl.
  rewrite lookup_alter_eq, lookup_touch. done.
Qed.

Lemma stored_world_current (f v : string) (d : pydict) (w : world) :
  current_session_id (stored_world f v d w) = current_session_id w.
Proof. unfold stored_world. simpl. apply touch_current. Qed.

(** C1. [store_field] stores exactly when [validate_field], run in the
    same state, accepts.  For every field, value and world one of two
    cases holds.  Either the validation returns its acceptance
    ["Valid <field>: <value>"] and [store_field] returns its success
    message; the onboarding state then is the old one with the field set
    to the value, and [get_current_state] afterwards lists the field
    with that value (the library assumptions exclude an accepted empty
    string for the four fields).  Or the validation does not accept,
    [store_field] ends in one of its refusals, and the session of every
    identifier, so also the stored value of the field, is what it was. *)
Theorem store_field_iff_validate
    (Hemail : email_ok "" = false) (Hcountry : ~ In "" country_names)
    (f v : string) (w : world) :
  let sid := current_session_id w in
  let before := session_of w sid in
  let after := snd (store f v w) in
  (fst (validate f v w) = Ret ("Valid " +:+ f +:+ ": " +:+ v)
   /\ fst (store f v w) = Ret (Str.capitalize f +:+ " stored successfully: " +:+ v)
   /\ exists d,
        onboarding_state before = PDict d
        /\ session_of after sid
           = Session (PDict (Py.dict_set f (PStr v) d)) (conversation_log before)
        /\ Py.dict_lookup f (Py.dict_set f (PStr v) d) = Some (PStr v)
        /\ fst (get_current_state py_repr after)
           = Ret ("Current onboarding state: " +:+
                  Str.join ", "
                    (List.map (state_part py_repr) (Py.dict_set f (PStr v) d)))
        /\ In (state_part py_repr (f, PStr v))
              (List.map (state_part py_repr) (Py.dict_set f (PStr v) d))
        /\ (v <> "" ->
            state_part py_repr (f, PStr v) = Str.capitalize f +:+ ": " +:+ v)
        /\ (is_field f -> v <> ""))
  \/
  (rejected (fst (validate f v w))
   /\ refused f (fst (store f v w))
   /\ forall sid', session_of after sid' = session_of w sid').
Proof.
  intros sid before after. subst after.
  rewrite validate_field_eq. cbn [fst]. fold sid. fold before.
  destruct (outcome_cases (onboarding_state before) f v) as [Hacc|Hrej].
  - left. pose proof Hacc as Hd.
    apply outcome_accepts in Hd as (d & Hob & Hf & Hv).
    rewrite (store_field_accepted f v w d Hob Hf Hv). cbn [fst snd].
    split; [done|]. split; [done|]. exists d.
    split; [done|]. split; [apply session_of_stored_world|].
    split; [apply dict_lookup_set_eq|]. split.
    { apply get_current_state_eq.
      by rewrite stored_world_current, session_of_stored_world. }
    split; [apply in_map, dict_set_in|]. split.
    { intros Hne. unfold state_part. cbn [fst snd Py.truthy format].
      destruct v; [done | reflexivity]. }
    intros [->|[->|[->| ->]]].
    + by apply (valid_name_nonempty d).
    + by apply (valid_email_nonempty d).
    + by apply (valid_phone_nonempty d).
    + by apply (valid_country_nonempty d).
  - right. destruct (store_field_rejected f v w Hrej) as [Href Hw].
    split; [done|]. split; [done|].
    intros sid'. rewrite Hw. apply session_of_touch.
Qed.

(** C7 (as amended).  [validate_field] is repeatable and changes nothing
    that can be observed: a second call with the same arguments returns
    the same result and leaves the world as the first call left it; the
    result depends on the onboarding state of the current session only;
    the current session identifier and the files are untouched; every
    session already in the store is untouched.  Its one effect on the
    store is the get-or-create of [_get_session_data]: when the current
    identifier has no session yet, the empty session is entered for it,
    which is the session any operation would have observed for that
    identifier anyway. *)
Theorem validate_field_repeatable_creates_only (f v : string) (w : world) :
  let sid := current_session_id w in
  let after := snd (validate f v w) in
  validate f v after = (fst (validate f v w), after)
  /\ (forall w2 : world,
        onboarding_state (session_of w2 (current_session_id w2))
        = onboarding_state (session_of w sid) ->
        fst (validate f v w2) = fst (validate f v w))
  /\ sessions_data after
     = match sessions_data w !! sid with
       | Some _ => sessions_data w
       | None => <[sid := empty_session]> (sessions_data w)
       end
  /\ (forall sid', session_of after sid' = session_of w sid')
  /\ current_session_id after = sid
  /\ disk after = disk w.
Proof.
  intros sid after. subst after. rewrite !validate_field_eq. cbn [fst snd].
  fold sid. rewrite touch_current. fold sid.
  rewrite session_of_touch, touch_touch.
  split; [done|]. split.
  { intros w2 H2. rewrite validate_field_eq. cbn [fst]. by rewrite H2. }
  split.
  { unfold touch. by destruct (sessions_data w !! sid). }
  split; [intros; apply session_of_touch|].
  split; [done|apply touch_disk].
Qed.

Lemma field_value_set_eq (k : string) (x : pyval) (d : pydict) :
  field_value (Py.dict_set k x d) k = x.
Proof. unfold field_value. by rewrite dict_lookup_set_eq. Qed.

Lemma field_value_set_ne (k k' : string) (x : pyval) (d : pydict) :
  k <> k' -> field_value (Py.dict_set k x d) k' = field_value d k'.
Proof. intros H. unfold field_value. by rewrite dict_lookup_set_ne. Qed.

(** C5 (the code against the claim).  The trimming the source asks for
    is not done.  In a process that has just started, the name [" A "]
    is accepted although its trimmed length is 1, and the phone
    [" +14155551234 "] is rejected although, trimmed, it is a word of
    the pattern: an optional plus sign and 2 to 15 digits of which the
    first is not zero. *)
Theorem strip_whitespace_is_not_applied (fs : filesystem) :
  String.length (Str.trim " A ") = 1
  /\ fst (validate "name" " A " (fresh_process fs)) = Ret "Valid name:  A "
  /\ Regex.matches phone_pattern (Str.trim " +14155551234 ")
  /\ international_format (Str.trim " +14155551234 ")
  /\ fst (validate "phone" " +14155551234 " (fresh_process fs))
     = Ret ("Invalid phone: " +:+
            validation_error_str
              [("name", PNone); ("email", PNone);
               ("phone", PStr " +14155551234 "); ("country", PNone)]).
Proof.
  assert (Hm : Regex.fullmatch phone_pattern (Str.trim " +14155551234 ") = true)
    by reflexivity.
  split; [reflexivity|]. split; [by rewrite validate_field_eq|].
  split; [by apply fullmatch_matches|].
  split; [by apply phone_pattern_format|].
  by rewrite validate_field_eq.
Qed.

(** ** The current session before it is set *)

Lemma outcome_dict_returns (d : pydict) (f v : string) :
  exists s, outcome (PDict d) f v = Ret s.
Proof.
  unfold validate_against. cbn [Py.has_item Py.copy Py.setitem].
  destruct (Py.dict_has f d); [|eauto].
  destruct (valid _); eauto.
Qed.

Lemma store_field_dict (f v : string) (w : world) (d : pydict) :
  onboarding_state (session_of w (current_session_id w)) = PDict d ->
  (exists s, fst (store f v w) = Ret s)
  /\ (snd (store f v w) = touch (current_session_id w) w
      \/ snd (store f v w) = stored_world f v d w).
Proof.
  intros Hob.
  destruct (outcome_cases (PDict d) f v) as [Hacc|Hrej].
  - apply outcome_accepts in Hacc as (d' & [= <-] & Hf & Hv).
    rewrite (store_field_accepted f v w d Hob Hf Hv). cbn [fst snd]. eauto.
  - rewrite <- Hob in Hrej.
    destruct (store_field_rejected f v w Hrej) as [_ Hw]. split; [|by left].
    unfold store_field, bind, gets, lift, ret.
    rewrite get_onboarding_state_eq, Hob. cbn [Py.has_item].
    destruct (Py.dict_has f d); cbn [negb]; [|simpl; eauto].
    rewrite validate_field_eq, touch_current, session_of_touch, Hob.
    destruct (outcome_dict_returns d f v) as [s ->].
    destruct (Str.startswith "Valid" s); simpl; eauto.
Qed.

(** On a session of the usual shape (a dict of fields, a list of
    entries) every tool of the current session returns. *)
Lemma tools_return_on_ordinary_session
    (f v now speaker text : string) (w : world) (d : pydict) (l : list pyval) :
  onboarding_state (session_of w (current_session_id w)) = PDict d ->
  conversation_log (session_of w (current_session_id w)) = PList l ->
  (exists s, fst (validate f v w) = Ret s)
  /\ (exists s, fst (store f v w) = Ret s)
  /\ (exists s, fst (log_message now speaker text w) = Ret s)
  /\ (exists s, fst (is_onboarding_complete w) = Ret s)
  /\ (exists s, fst (get_summary py_repr w) = Ret s)
  /\ (exists s, fst (get_current_state py_repr w) = Ret s).
Proof.
  intros Hob Hl. split; [|split; [|split; [|split; [|split]]]].
  - rewrite validate_field_eq, Hob. apply outcome_dict_returns.
  - apply (store_field_dict f v w d Hob).
  - unfold log_message, bind, gets, try_except, ret.
    rewrite get_conversation_log_eq, Hl. cbn. eauto.
  - unfold is_onboarding_complete, bind, gets, lift, ret.
    rewrite get_onboarding_state_eq, Hob. cbn [Py.items].
    destruct (missing_fields d); cbn; eauto.
  - unfold get_summary, bind, gets, lift, ret.
    rewrite get_onboarding_state_eq, Hob. cbn [Py.items].
    destruct (List.filter _ d); cbn; eauto.
  - rewrite (get_current_state_eq w d Hob). eauto.
Qed.


End ToolFacts.

(** ** Saving and loading *)

Lemma save_session_world (sid : string) (w : world) :
  sessions_data (snd (save_session sid w)) = sessions_data (touch sid w)
  /\ current_session_id (snd (save_session sid w)) = current_session_id w.
Proof.
  unfold save_session, bind, try_except, write_json, lift, ret.
  rewrite get_session_data_eq, touch_disk.
  destruct (write_fault (disk w) (_get_session_file sid)) as [[msg [f|]]|];
    cbn [fst snd write_msg write_residue].
  - split; [done|apply touch_current].
  - split; [done|apply touch_current].
  - destruct (Py.len _); cbn; split; try done; apply touch_current.
Qed.

Lemma save_session_returns (sid : string) (w : world) :
  exists s, fst (save_session sid w) = Ret s.
Proof.
  unfold save_session, bind, try_except, write_json, lift, ret.
  rewrite get_session_data_eq, touch_disk.
  destruct (write_fault (disk w) (_get_session_file sid)) as [[msg [f|]]|];
    cbn; eauto.
  destruct (Py.len _); cbn; eauto.
Qed.

Lemma save_session_fault (sid : string) (w : world) (flt : write_failure) :
  write_fault (disk w) (_get_session_file sid) = Some flt ->
  fst (save_session sid w) = Ret ("Failed to save session: " +:+ write_msg flt).
Proof.
  intros Hf. unfold save_session, bind, try_except, write_json, lift, ret.
  rewrite get_session_data_eq, touch_disk, Hf. by destruct flt as [msg [f|]].
Qed.

Lemma save_session_ok (sid : string) (w : world) (n : nat) :
  write_fault (disk w) (_get_session_file sid) = None ->
  Py.len (conversation_log (session_of w sid)) = Ret n ->
  save_session sid w =
  (Ret ("Session " +:+ sid +:+ " saved successfully"),
   with_files (<[_get_session_file sid := FJson (record_of sid (session_of w sid))]>
                 (files (disk w)))
              (touch sid w)).
Proof.
  intros Hf Hn. unfold save_session, bind, try_except, write_json, lift, ret.
  rewrite get_session_data_eq, touch_disk, Hf, Hn. done.
Qed.

Lemma load_session_missing (sid : string) (w : world) :
  files (disk w) !! _get_session_file sid = None ->
  load_session sid w = (Ret ("Session file not found for " +:+ sid), w).
Proof.
  intros Hf. unfold load_session, bind, try_except, path_exists, gets, ret.
  by rewrite Hf.
Qed.

Lemma load_session_read_fault (sid : string) (w : world) (msg : string) :
  is_Some (files (disk w) !! _get_session_file sid) ->
  read_fault (disk w) (_get_session_file sid) = Some msg ->
  load_session sid w = (Ret ("Failed to load session: " +:+ msg), w).
Proof.
  intros [f Hf] Hr.
  unfold load_session, bind, try_except, path_exists, read_json, gets, ret.
  by rewrite Hf, Hr.
Qed.

Lemma load_session_corrupt (sid : string) (w : world) (msg : string) :
  read_fault (disk w) (_get_session_file sid) = None ->
  files (disk w) !! _get_session_file sid = Some (FCorrupt msg) ->
  load_session sid w = (Ret ("Failed to load session: " +:+ msg), w).
Proof.
  intros Hr Hf.
  unfold load_session, bind, try_except, path_exists, read_json, gets, ret.
  cbv zeta. rewrite Hf. cbv beta iota. by rewrite Hr, Hf.
Qed.

Lemma load_session_not_object (sid : string) (w : world) (v : pyval) :
  read_fault (disk w) (_get_session_file sid) = None ->
  files (disk w) !! _get_session_file sid = Some (FJson v) ->
  (forall d, v <> PDict d) ->
  load_session sid w =
  (Ret ("Failed to load session: '" +:+ Py.type_name v
        +:+ "' object has no attribute 'get'"), w).
Proof.
  intros Hr Hf Hv.
  unfold load_session, bind, try_except, path_exists, read_json, gets, lift, ret.
  cbv zeta. rewrite Hf. cbv beta iota. rewrite Hr, Hf.
  destruct v; try done. by destruct (Hv d).
Qed.

Lemma load_session_object (sid : string) (w : world) (d : pydict) (n : nat) :
  read_fault (disk w) (_get_session_file sid) = None ->
  files (disk w) !! _get_session_file sid = Some (FJson (PDict d)) ->
  Py.len (default (PList []) (Py.dict_lookup "conversation" d)) = Ret n ->
  load_session sid w =
  (Ret ("Session " +:+ sid +:+ " loaded successfully"),
   with_sessions
     (<[sid := Session
                 (default empty_onboarding_state (Py.dict_lookup "onboarding_data" d))
                 (default (PList []) (Py.dict_lookup "conversation" d))]>
        (sessions_data w)) w).
Proof.
  intros Hr Hf Hn.
  unfold load_session, bind, try_except, path_exists, read_json, gets, lift,
    modify, ret.
  cbv zeta. rewrite Hf. cbv beta iota. rewrite Hr, Hf.
  cbn [Py.get]. cbv beta iota. by rewrite Hn.
Qed.

(** A record that is an object but whose conversation has no length: the
    assignment is done before the count of messages is taken. *)
Lemma load_session_object_unsized
    (sid : string) (w : world) (d : pydict) (e : exn) :
  read_fault (disk w) (_get_session_file sid) = None ->
  files (disk w) !! _get_session_file sid = Some (FJson (PDict d)) ->
  Py.len (default (PList []) (Py.dict_lookup "conversation" d)) = Raise e ->
  load_session sid w =
  (Ret ("Failed to load session: " +:+ exn_str e),
   with_sessions
     (<[sid := Session
                 (default empty_onboarding_state (Py.dict_lookup "onboarding_data" d))
                 (default (PList []) (Py.dict_lookup "conversation" d))]>
        (sessions_data w)) w).
Proof.
  intros Hr Hf Hn.
  unfold load_session, bind, try_except, path_exists, read_json, gets, lift,
    modify, ret.
  cbv zeta. rewrite Hf. cbv beta iota. rewrite Hr, Hf.
  cbn [Py.get]. cbv beta iota. by rewrite Hn.
Qed.

Lemma load_session_returns (sid : string) (w : world) :
  exists s, fst (load_session sid w) = Ret s.
Proof.
  destruct (files (disk w) !! _get_session_file sid) as [f|] eqn:Hf.
  - destruct (read_fault (disk w) (_get_session_file sid)) as [msg|] eqn:Hr.
    { rewrite (load_session_read_fault sid w msg); eauto. }
    destruct f as [v|msg].
    + destruct v as [| | | | |d];
        try (rewrite (load_session_not_object sid w _ Hr Hf); by eauto).
      destruct (Py.len (default (PList []) (Py.dict_lookup "conversation" d)))
        as [n|e] eqn:Hn.
      * rewrite (load_session_object sid w d n); eauto.
      * rewrite (load_session_object_unsized sid w d e); eauto.
    + rewrite (load_session_corrupt sid w msg); eauto.
  - rewrite load_session_missing; eauto.
Qed.

(** C2.  Saving a session and loading it after a restart gives back the
    same session.  Whatever the onboarding state and whatever the list of
    logged entries of the session, if the record file can be written and
    read, [save_session] reports success, and [load_session] of the same
    identifier in a process whose store is empty reports success and
    leaves under the identifier a session with the same onboarding state
    and the same entries in the same order. *)
Theorem save_then_load_round_trip
    (sid : string) (w : world) (ob : pyval) (log : list pyval) :
  session_of w sid = Session ob (PList log) ->
  write_fault (disk w) (_get_session_file sid) = None ->
  read_fault (disk w) (_get_session_file sid) = None ->
  let saved := snd (save_session sid w) in
  let loaded := snd (load_session sid (restart saved)) in
  fst (save_session sid w) = Ret ("Session " +:+ sid +:+ " saved successfully")
  /\ sessions_data (restart saved) = ∅
  /\ fst (load_session sid (restart saved))
     = Ret ("Session " +:+ sid +:+ " loaded successfully")
  /\ sessions_data loaded !! sid = Some (Session ob (PList log))
  /\ session_of loaded sid = session_of w sid.
Proof.
  intros HS Hw Hr saved loaded. subst loaded saved.
  rewrite (save_session_ok sid w (length log) Hw) by (by rewrite HS).
  cbn [fst snd]. split; [done|]. split; [done|].
  rewrite (load_session_object sid _
             [("session_id", PStr sid);
              ("onboarding_data", onboarding_state (session_of w sid));
              ("conversation", conversation_log (session_of w sid))]
             (length log)).
  - cbn [fst snd]. split; [done|]. rewrite HS.
    unfold session_of. simpl. rewrite lookup_insert_eq. done.
  - cbn [restart fresh_process with_files disk read_fault]. by rewrite touch_disk.
  - cbn [restart fresh_process with_files disk files]. by rewrite lookup_insert_eq.
  - simpl. by rewrite HS.
Qed.

(** X22.  Faults of the file system and of the JSON parser stay inside
    [save_session] and [load_session].  Neither ever raises.  A write
    that fails makes [save_session] return ["Failed to save session: "]
    with the message of the fault, and whether it fails or not the store
    holds what it held, except that the get-or-create of
    [_get_session_data] has entered the empty session for an identifier
    that had none; so the session observed for every identifier is the
    same.  When the record file cannot be opened, holds text that is not
    JSON, or holds JSON that is not an object, [load_session] returns
    ["Failed to load session: "] with the message and the world is
    exactly what it was. *)
Theorem persistence_faults_are_contained (sid : string) (w : world) :
  let path := _get_session_file sid in
  ((exists s, fst (save_session sid w) = Ret s)
   /\ (forall flt, write_fault (disk w) path = Some flt ->
         fst (save_session sid w)
         = Ret ("Failed to save session: " +:+ write_msg flt))
   /\ sessions_data (snd (save_session sid w))
      = match sessions_data w !! sid with
        | Some _ => sessions_data w
        | None => <[sid := empty_session]> (sessions_data w)
        end
   /\ (forall sid', session_of (snd (save_session sid w)) sid' = session_of w sid'))
  /\
  ((exists s, fst (load_session sid w) = Ret s)
   /\ (forall msg, is_Some (files (disk w) !! path) ->
         read_fault (disk w) path = Some msg ->
         load_session sid w = (Ret ("Failed to load session: " +:+ msg), w))
   /\ (forall msg, read_fault (disk w) path = None ->
         files (disk w) !! path = Some (FCorrupt msg) ->
         load_session sid w = (Ret ("Failed to load session: " +:+ msg), w))
   /\ (forall v, read_fault (disk w) path = None ->
         files (disk w) !! path = Some (FJson v) ->
         (forall d, v <> PDict d) ->
         load_session sid w
         = (Ret ("Failed to load session: '" +:+ Py.type_name v
                 +:+ "' object has no attribute 'get'"), w))).
Proof.
  intros path. destruct (save_session_world sid w) as [Hs Hc].
  split; [split; [|split; [|split]] | split; [|split; [|split]]].
  - apply save_session_returns.
  - apply save_session_fault.
  - rewrite Hs. unfold touch. by destruct (sessions_data w !! sid).
  - intros sid'. unfold session_of at 1. rewrite Hs. apply session_of_touch.
  - apply load_session_returns.
  - apply load_session_read_fault.
  - apply load_session_corrupt.
  - apply load_session_not_object.
Qed.

(** C8 (the code against the claim).  A load can fail after it has
    overwritten the session.  The process holds a session with three
    fields and one logged message; its record file holds valid JSON
    whose [conversation] is [null].  [load_session] assigns the session
    from the record and only then takes the length of the log for its
    message: the fault is caught, the answer is ["Failed to load
    session: ..."], and the session in memory is the one of the record,
    with no log, not the one it was. *)
Theorem failed_load_overwrites_memory :
  session_of (Scenario2.running_with (FJson Scenario2.unsized_record)) "s1"
  = Session
      (onboarding_fields (PStr "Al") (PStr "al@example.com") PNone (PStr "Canada"))
      (PList [message_entry "user" "hello" "2025-01-01 10:00:00"])
  /\ fst (load_session "s1"
            (Scenario2.running_with (FJson Scenario2.unsized_record)))
     = Ret "Failed to load session: object of type 'NoneType' has no len()"
  /\ sessions_data
       (snd (load_session "s1"
               (Scenario2.running_with (FJson Scenario2.unsized_record)))) !! "s1"
     = Some (Session (onboarding_fields (PStr "Bo") PNone PNone PNone) PNone).
Proof.
  split; [reflexivity|].
  rewrite (load_session_object_unsized "s1" _
             [("session_id", PStr "s1");
              ("onboarding_data", onboarding_fields (PStr "Bo") PNone PNone PNone);
              ("conversation", PNone)]
             (Exn TypeError "object of type 'NoneType' has no len()"));
    [|reflexivity..].
  cbn [fst snd]. split; [done|]. simpl. by rewrite lookup_insert_eq.
Qed.

(** C9 (as amended).  When there is no record file for an identifier,
    [load_session] returns its not-found message and changes nothing: the
    session observed for the identifier afterwards is the one observed
    before, which is the empty session when the store had no session for
    the identifier. *)
Theorem load_session_not_found_keeps_memory (sid : string) (w : world) :
  files (disk w) !! _get_session_file sid = None ->
  load_session sid w = (Ret ("Session file not found for " +:+ sid), w)
  /\ session_of (snd (load_session sid w)) sid = session_of w sid
  /\ (sessions_data w !! sid = None ->
      session_of (snd (load_session sid w)) sid = empty_session).
Proof.
  intros Hf. rewrite (load_session_missing sid w Hf). cbn [snd].
  split; [done|]. split; [done|].
  intros Hn. unfold session_of. by rewrite Hn.
Qed.

(** ** Logging *)

Lemma log_message_appends
    (now speaker text : string) (w : world) (l : list pyval) :
  conversation_log (session_of w (current_session_id w)) = PList l ->
  fst (log_message now speaker text w)
  = Ret ("Message logged successfully for session " +:+ current_session_id w)
  /\ session_of (snd (log_message now speaker text w)) (current_session_id w)
     = Session (onboarding_state (session_of w (current_session_id w)))
               (PList (l ++ [message_entry speaker text now])).
Proof.
  intros Hl. unfold log_message, bind, gets, try_except, ret.
  rewrite get_conversation_log_eq, Hl. cbn [fst snd append_entry].
  split; [done|].
  unfold set_conversation_log, modify, session_of at 1. cbn [fst snd].
  cbn [with_sessions sessions_data].
  by rewrite lookup_alter_eq, lookup_touch.
Qed.

Lemma lstrip_blank (s : string) :
  blank s = true -> Str.lstrip Str.py_isspace s = "".
Proof.
  induction s as [|c s IH]; [done|]. unfold blank. simpl.
  intros H. apply andb_true_iff in H as [Hc Hs]. rewrite Hc. by apply IH.
Qed.

Lemma strip_blank (s : string) : blank s = true -> Str.strip s = "".
Proof.
  intros H. unfold Str.strip, Str.strip_with. by rewrite lstrip_blank.
Qed.

(** The sibling [log_conversation_turn] leaves blank texts out. *)
Lemma log_conversation_turn_skips_blank
    (now1 now2 user_message assistant_response : string) (w : world) :
  blank user_message = true ->
  blank assistant_response = true ->
  forall sid,
    session_of (snd (log_conversation_turn now1 now2 user_message
                       assistant_response w)) sid
    = session_of w sid.
Proof.
  intros Hu Ha sid.
  unfold log_conversation_turn, bind, gets, try_except, ret.
  rewrite get_conversation_log_eq, !strip_blank by done.
  cbn [Str.is_empty negb fst snd].
  destruct (save_session_world (current_session_id w)
              (touch (current_session_id w) w)) as [Hs _].
  destruct (save_session (current_session_id w) (touch (current_session_id w) w))
    as [[s|e] w'] eqn:E; cbn [fst snd] in *;
    unfold session_of at 1; rewrite Hs, touch_touch; apply session_of_touch.
Qed.

(** C3 (the code against the claim).  [log_message] appends an entry
    whatever the text is: in a process that has just started, logging an
    empty text or a text of three spaces returns the confirmation and
    leaves a log of one entry that carries that text. *)
Theorem log_message_logs_blank_text (now speaker : string) (fs : filesystem) :
  let w := fresh_process fs in
  blank "" = true /\ blank "   " = true
  /\ fst (log_message now speaker "" w)
     = Ret "Message logged successfully for session "
  /\ conversation_log (session_of (snd (log_message now speaker "" w)) "")
     = PList [message_entry speaker "" now]
  /\ fst (log_message now speaker "   " w)
     = Ret "Message logged successfully for session "
  /\ conversation_log (session_of (snd (log_message now speaker "   " w)) "")
     = PList [message_entry speaker "   " now].
Proof.
  intros w.
  assert (Hl : conversation_log (session_of w (current_session_id w)) = PList [])
    by done.
  destruct (log_message_appends now speaker "" w [] Hl) as [H1 H2].
  destruct (log_message_appends now speaker "   " w [] Hl) as [H3 H4].
  cbn [current_session_id w fresh_process] in H1, H2, H3, H4.
  rewrite H1, H2, H3, H4. done.
Qed.

(** ** Completion *)

Lemma filled_spec (o : option string) :
  filled o = true <-> exists s, o = Some s /\ s <> "".
Proof.
  destruct o as [[|c s]|]; simpl; split; try done.
  - by intros (s & [= <-] & H).
  - intros _. by exists (String c s).
  - by intros (s & ? & _).
Qed.

Lemma truthy_opt_str (o : option string) : Py.truthy (opt_str o) = filled o.
Proof. by destruct o. Qed.

(** C4 (as amended).  With the four fields holding a string or [None],
    [is_onboarding_complete] reports completion exactly when every field
    holds a non-empty string; otherwise it reports the names of the
    fields that hold [None] or the empty string, those and no others, in
    the order name, email, phone, country. *)
Theorem onboarding_complete_iff_all_filled
    (w : world) (n e p c : option string) :
  onboarding_state (session_of w (current_session_id w))
  = onboarding_fields (opt_str n) (opt_str e) (opt_str p) (opt_str c) ->
  fst (is_onboarding_complete w)
  = if filled n && filled e && filled p && filled c
    then Ret "Onboarding complete - all fields filled"
    else Ret ("Onboarding incomplete. Missing: " +:+
              Str.join ", "
                (unfilled_name "name" n ++ unfilled_name "email" e ++
                 unfilled_name "phone" p ++ unfilled_name "country" c)).
Proof.
  intros Hob. unfold is_onboarding_complete, bind, gets, lift, ret.
  rewrite get_onboarding_state_eq, Hob.
  cbn [Py.items onboarding_fields fst snd].
  unfold missing_fields, unfilled_name. cbn [List.filter snd].
  rewrite !truthy_opt_str.
  by destruct (filled n), (filled e), (filled p), (filled c).
Qed.

(** ** Loading records that were not written by [save_session] *)

(** C6 (the code against the claim).  A record whose [onboarding_data]
    object holds the name only is loaded with success, and the onboarding
    state then has that one key: the email is refused as an unknown
    field, by validation and by storage, the onboarding counts as
    complete, and the state lists the name alone.  A record whose
    [onboarding_data] is [null] is loaded with success too, and
    [validate_field] then raises.  Only a record without the key
    [onboarding_data] gets the four empty fields. *)
Theorem partial_record_leaves_fields_absent
    (email_ok : string -> bool) (country_names : list string)
    (validation_error_str : pydict -> string) (py_repr : pyval -> string) :
  (fst (load_session "s1" (Scenario.started_with (FJson Scenario.partial_record)))
   = Ret "Session s1 loaded successfully"
   /\ onboarding_state
        (session_of
           (snd (load_session "s1"
                   (Scenario.started_with (FJson Scenario.partial_record)))) "s1")
      = PDict [("name", PStr "Al")]
   /\ fst (validate_field email_ok country_names validation_error_str
             "email" "al@example.com"
             (snd (load_session "s1"
                     (Scenario.started_with (FJson Scenario.partial_record)))))
      = Ret "Invalid field: email. Must be one of: name, email, phone, country"
   /\ fst (store_field email_ok country_names validation_error_str
             "email" "al@example.com"
             (snd (load_session "s1"
                     (Scenario.started_with (FJson Scenario.partial_record)))))
      = Ret "Invalid field: email. Must be one of: name, email, phone, country"
   /\ fst (is_onboarding_complete
             (snd (load_session "s1"
                     (Scenario.started_with (FJson Scenario.partial_record)))))
      = Ret "Onboarding complete - all fields filled"
   /\ fst (get_current_state py_repr
             (snd (load_session "s1"
                     (Scenario.started_with (FJson Scenario.partial_record)))))
      = Ret "Current onboarding state: Name: Al")
  /\
  (fst (load_session "s1" (Scenario.started_with (FJson Scenario.null_record)))
   = Ret "Session s1 loaded successfully"
   /\ fst (validate_field email_ok country_names validation_error_str
             "email" "al@example.com"
             (snd (load_session "s1"
                     (Scenario.started_with (FJson Scenario.null_record)))))
      = Raise (Exn TypeError "argument of type 'NoneType' is not iterable"))
  /\
  (session_of
     (snd (load_session "s1" (Scenario.started_with (FJson Scenario.bare_record))))
     "s1"
   = empty_session).
Proof.
  assert (Hp : load_session "s1" (Scenario.started_with (FJson Scenario.partial_record))
               = (Ret "Session s1 loaded successfully",
                  with_sessions
                    (<["s1" := Session (PDict [("name", PStr "Al")]) (PList [])]> ∅)
                    (Scenario.started_with (FJson Scenario.partial_record)))).
  { by rewrite (load_session_object "s1" _
                  [("session_id", PStr "s1");
                   ("onboarding_data", PDict [("name", PStr "Al")]);
                   ("conversation", PList [])] 0). }
  assert (Hn : load_session "s1" (Scenario.started_with (FJson Scenario.null_record))
               = (Ret "Session s1 loaded successfully",
                  with_sessions
                    (<["s1" := Session PNone (PList [])]> ∅)
                    (Scenario.started_with (FJson Scenario.null_record)))).
  { by rewrite (load_session_object "s1" _
                  [("session_id", PStr "s1");
                   ("onboarding_data", PNone);
                   ("conversation", PList [])] 0). }
  assert (Hb : load_session "s1" (Scenario.started_with (FJson Scenario.bare_record))
               = (Ret "Session s1 loaded successfully",
                  with_sessions
                    (<["s1" := empty_session]> ∅)
                    (Scenario.started_with (FJson Scenario.bare_record)))).
  { by rewrite (load_session_object "s1" _ [("session_id", PStr "s1")] 0). }
  rewrite Hp, Hn, Hb. cbn [fst snd].
  split; [|split]; [| |done].
  - split; [done|]. split; [done|]. split.
    { by rewrite validate_field_eq. }
    split.
    { unfold store_field, bind, gets, lift, ret.
      by rewrite get_onboarding_state_eq. }
    split.
    { unfold is_onboarding_complete, bind, gets, lift, ret.
      by rewrite get_onboarding_state_eq. }
    unfold get_current_state, bind, gets, lift, ret.
    by rewrite get_onboarding_state_eq.
  - split; [done|]. by rewrite validate_field_eq.
Qed.

(** ** Concrete states

    C4, the statement as written fails: every field holds a string, none is
    [None], and the onboarding is reported incomplete because the name
    is the empty string. *)
Lemma complete_not_implied_by_non_null :
  onboarding_state (session_of Scenario.empty_name_session "s1")
  = onboarding_fields (PStr "") (PStr "al@example.com")
      (PStr "+14155551234") (PStr "Canada")
  /\ fst (is_onboarding_complete Scenario.empty_name_session)
     = Ret "Onboarding incomplete. Missing: name".
Proof. split; reflexivity. Qed.

(** C7, the statement as written fails: validating in a process that has just
    started enters a session in the store. *)
Lemma validate_field_creates_session :
  sessions_data (fresh_process Sample.no_faults) !! "" = None
  /\ sessions_data
       (snd (validate_field Sample.email_ok Sample.country_names
               Sample.validation_error_str "name" "Al"
               (fresh_process Sample.no_faults))) !! ""
     = Some empty_session.
Proof. split; [reflexivity|]. rewrite validate_field_eq. reflexivity. Qed.

(** C9, the statement as written fails: a session that lives in memory and
    was never saved has no record file; [load_session] answers not
    found, and the state observed afterwards is the one in memory, not
    the empty one. *)
Lemma load_not_found_keeps_unsaved_session :
  files (disk Scenario.unsaved_session) !! _get_session_file "s1" = None
  /\ fst (load_session "s1" Scenario.unsaved_session)
     = Ret "Session file not found for s1"
  /\ session_of (snd (load_session "s1" Scenario.unsaved_session)) "s1"
     = Session (onboarding_fields (PStr "Al") PNone PNone PNone) (PList [])
  /\ session_of (snd (load_session "s1" Scenario.unsaved_session)) "s1"
     <> empty_session.
Proof.
  assert (Hf : files (disk Scenario.unsaved_session) !! _get_session_file "s1" = None)
    by reflexivity.
  rewrite (load_session_missing "s1" _ Hf). cbn [fst snd].
  split; [done|]. split; [done|]. split; [reflexivity|].
  intros H. vm_compute in H. discriminate H.
Qed.

(** *** Instances *)

Lemma store_field_iff_validate_witness :
  Sample.email_ok "" = false
  /\ ~ In "" Sample.country_names
  /\ fst (store_field Sample.email_ok Sample.country_names
            Sample.validation_error_str "phone" "+14155551234"
            Scenario.busy_session)
     = Ret "Phone stored successfully: +14155551234".
Proof.
  assert (He : Sample.email_ok "" = false) by reflexivity.
  assert (Hc : ~ In "" Sample.country_names).
  { simpl. intros [H|[H|[H|[H|[]]]]]; discriminate H. }
  split; [exact He|]. split; [exact Hc|].
  destruct (store_field_iff_validate Sample.email_ok Sample.country_names
              Sample.validation_error_str Sample.py_repr He Hc
              "phone" "+14155551234" Scenario.busy_session)
    as [(_ & Hs & _)|(Hr & _)].
  - exact Hs.
  - exfalso. vm_compute in Hr. discriminate Hr.
Defined.

Lemma save_then_load_round_trip_witness :
  session_of Scenario.busy_session "s1"
  = Session
      (onboarding_fields (PStr "Al") (PStr "al@example.com") PNone (PStr "Canada"))
      (PList [message_entry "user" "hello" "2025-01-01 10:00:00"])
  /\ session_of
       (snd (load_session "s1"
               (restart (snd (save_session "s1" Scenario.busy_session))))) "s1"
     = session_of Scenario.busy_session "s1".
Proof.
  assert (HS : session_of Scenario.busy_session "s1"
               = Session
                   (onboarding_fields (PStr "Al") (PStr "al@example.com")
                      PNone (PStr "Canada"))
                   (PList [message_entry "user" "hello" "2025-01-01 10:00:00"]))
    by reflexivity.
  split; [exact HS|].
  apply (save_then_load_round_trip "s1" Scenario.busy_session _ _ HS);
    reflexivity.
Defined.

Lemma onboarding_complete_iff_all_filled_witness :
  fst (is_onboarding_complete Scenario.busy_session)
  = Ret "Onboarding incomplete. Missing: phone".
Proof.
  apply (onboarding_complete_iff_all_filled Scenario.busy_session
           (Some "Al") (Some "al@example.com") None (Some "Canada")).
  reflexivity.
Defined.

Lemma validate_field_repeatable_creates_only_witness :
  onboarding_state
    (session_of (Scenario.with_current "s2" Scenario.unsaved_session) "s2")
  = onboarding_state (session_of (fresh_process Sample.no_faults) "")
  /\ fst (validate_field Sample.email_ok Sample.country_names
            Sample.validation_error_str "country" "Atlantis"
            (Scenario.with_current "s2" Scenario.unsaved_session))
     = fst (validate_field Sample.email_ok Sample.country_names
              Sample.validation_error_str "country" "Atlantis"
              (fresh_process Sample.no_faults)).
Proof.
  split; [reflexivity|].
  apply (validate_field_repeatable_creates_only Sample.email_ok
           Sample.country_names Sample.validation_error_str
           "country" "Atlantis" (fresh_process Sample.no_faults)).
  reflexivity.
Defined.

Lemma persistence_faults_are_contained_witness :
  write_fault Scenario.full_disk (_get_session_file "s1")
  = Some {| write_msg := "[Errno 28] No space left on device";
            write_residue :=
              Some (FCorrupt "Expecting value: line 1 column 1 (char 0)") |}
  /\ fst (save_session "s1" (fresh_process Scenario.full_disk))
     = Ret "Failed to save session: [Errno 28] No space left on device"
  /\ load_session "s1"
       (Scenario.started_with
          (FCorrupt "Expecting value: line 1 column 1 (char 0)"))
     = (Ret "Failed to load session: Expecting value: line 1 column 1 (char 0)",
        Scenario.started_with
          (FCorrupt "Expecting value: line 1 column 1 (char 0)")).
Proof.
  split; [reflexivity|]. split.
  - destruct (persistence_faults_are_contained "s1"
                (fresh_process Scenario.full_disk)) as [(_ & Hs & _) _].
    apply (Hs _ eq_refl).
  - destruct (persistence_faults_are_contained "s1"
                (Scenario.started_with
                   (FCorrupt "Expecting value: line 1 column 1 (char 0)")))
      as [_ (_ & _ & Hc & _)].
    apply (Hc _ eq_refl eq_refl).
Defined.

Lemma load_session_not_found_keeps_memory_witness :
  files (disk (fresh_process Sample.no_faults)) !! _get_session_file "unknown-id"
  = None
  /\ load_session "unknown-id" (fresh_process Sample.no_faults)
     = (Ret "Session file not found for unknown-id",
        fresh_process Sample.no_faults)
  /\ session_of
       (snd (load_session "unknown-id" (fresh_process Sample.no_faults)))
       "unknown-id"
     = empty_session.
Proof.
  assert (Hf : files (disk (fresh_process Sample.no_faults))
                 !! _get_session_file "unknown-id" = None) by reflexivity.
  split; [exact Hf|].
  destruct (load_session_not_found_keeps_memory "unknown-id"
              (fresh_process Sample.no_faults) Hf) as (H1 & _ & H3).
  split; [exact H1|]. apply H3. reflexivity.
Defined.


(** * Further properties of the tools and of the agent hooks *)

(** ** Saving, again *)

Lemma save_session_after (sid : string) (w : world) :
  snd (save_session sid w) = after_save sid w.
Proof.
  unfold save_session, after_save, written_file, bind, try_except, write_json,
    lift, ret.
  rewrite get_session_data_eq, touch_disk.
  destruct (write_fault (disk w) (_get_session_file sid)) as [[msg [f|]]|];
    cbn [fst snd write_msg write_residue]; try done.
  by destruct (Py.len _).
Qed.

Lemma touch_with_files (sid : string) (m : gmap string file) (w : world) :
  touch sid (with_files m w) = with_files m (touch sid w).
Proof.
  unfold touch. cbn [with_files sessions_data].
  by destruct (sessions_data w !! sid).
Qed.

Lemma with_files_with_files (m m' : gmap string file) (w : world) :
  with_files m (with_files m' w) = with_files m w.
Proof. done. Qed.

Lemma session_of_with_files (m : gmap string file) (w : world) (sid : string) :
  session_of (with_files m w) sid = session_of w sid.
Proof. done. Qed.

Lemma session_of_after_save (sid sid' : string) (w : world) :
  session_of (after_save sid w) sid' = session_of w sid'.
Proof.
  unfold after_save. destruct (written_file sid w).
  - rewrite session_of_with_files. apply session_of_touch.
  - apply session_of_touch.
Qed.

Lemma write_fault_after_save (sid : string) (w : world) :
  write_fault (disk (after_save sid w)) = write_fault (disk w).
Proof.
  unfold after_save. destruct (written_file sid w); simpl; by rewrite touch_disk.
Qed.

Lemma read_fault_after_save (sid : string) (w : world) :
  read_fault (disk (after_save sid w)) = read_fault (disk w).
Proof.
  unfold after_save. destruct (written_file sid w); simpl; by rewrite touch_disk.
Qed.

Lemma written_file_after_save (sid : string) (w : world) :
  written_file sid (after_save sid w) = written_file sid w.
Proof.
  unfold written_file.
  by rewrite write_fault_after_save, session_of_after_save.
Qed.

Lemma files_after_save (sid : string) (w : world) :
  files (disk (after_save sid w))
  = match written_file sid w with
    | Some f => <[_get_session_file sid := f]> (files (disk w))
    | None => files (disk w)
    end.
Proof.
  unfold after_save. destruct (written_file sid w); simpl; [done|].
  by rewrite touch_disk.
Qed.

(** The result of [save_session] is a function of the write fault and of
    the log of the session. *)
Lemma save_session_result (sid : string) (w : world) :
  fst (save_session sid w)
  = match write_fault (disk w) (_get_session_file sid) with
    | Some flt => Ret ("Failed to save session: " +:+ write_msg flt)
    | None =>
        match Py.len (conversation_log (session_of w sid)) with
        | Ret _ => Ret ("Session " +:+ sid +:+ " saved successfully")
        | Raise e => Ret ("Failed to save session: " +:+ exn_str e)
        end
    end.
Proof.
  unfold save_session, bind, try_except, write_json, lift, ret.
  rewrite get_session_data_eq, touch_disk.
  destruct (write_fault (disk w) (_get_session_file sid)) as [[msg [f|]]|];
    cbn [fst snd write_msg write_residue]; try done.
  by destruct (Py.len _).
Qed.

Lemma save_session_pair (sid : string) (w : world) :
  save_session sid w = (fst (save_session sid w), after_save sid w).
Proof. rewrite <- save_session_after. by destruct (save_session sid w). Qed.

(** X4.  Saving twice is saving once: a second [save_session] of the
    same session returns what the first returned and leaves the store
    and the files as the first left them, whether the write fails or
    not. *)
Theorem save_session_idempotent (sid : string) (w : world) :
  save_session sid (snd (save_session sid w)) = save_session sid w.
Proof.
  rewrite (save_session_pair sid w). cbn [snd].
  rewrite (save_session_pair sid (after_save sid w)). f_equal.
  - rewrite !save_session_result.
    by rewrite write_fault_after_save, session_of_after_save.
  - unfold after_save at 1. rewrite written_file_after_save.
    unfold after_save. destruct (written_file sid w) as [f|].
    + rewrite touch_with_files, touch_touch, with_files_with_files.
      cbn [with_files disk files]. by rewrite insert_insert_eq.
    + apply touch_touch.
Qed.

Lemma length_append (a b : string) :
  String.length (a +:+ b) = String.length a + String.length b.
Proof.
  induction a as [|c a IH]; [done|]. rewrite append_cons. simpl. by rewrite IH.
Qed.

Lemma append_inj_l (p a b : string) : p +:+ a = p +:+ b -> a = b.
Proof.
  induction p as [|c p IH]; [done|]. rewrite !append_cons.
  intros [= H]. by apply IH.
Qed.

Lemma append_inj_r (t a b : string) : a +:+ t = b +:+ t -> a = b.
Proof.
  revert b. induction a as [|c a IH]; intros [|c' b] H.
  - done.
  - apply (f_equal String.length) in H.
    rewrite (length_append (String c' b) t) in H.
    change ("" +:+ t) with t in H. cbn [String.length] in H. lia.
  - apply (f_equal String.length) in H.
    rewrite (length_append (String c a) t) in H.
    change ("" +:+ t) with t in H. cbn [String.length] in H. lia.
  - rewrite !append_cons in H. injection H as -> H. f_equal. by apply IH.
Qed.

Lemma get_session_file_inj (sid sid' : string) :
  _get_session_file sid = _get_session_file sid' -> sid = sid'.
Proof.
  unfold _get_session_file. intros H.
  apply append_inj_l in H. by apply append_inj_r in H.
Qed.

(** X5.  Sessions do not share record files: two identifiers with the
    same file name are the same identifier, so [save_session] of one
    session leaves the record file of every other session as it was,
    whatever happens to the write. *)
Theorem save_session_keeps_other_records (sid sid' : string) (w : world) :
  sid <> sid' ->
  _get_session_file sid <> _get_session_file sid'
  /\ files (disk (snd (save_session sid w))) !! _get_session_file sid'
     = files (disk w) !! _get_session_file sid'.
Proof.
  intros Hne.
  assert (Hp : _get_session_file sid <> _get_session_file sid')
    by (intros H; by apply get_session_file_inj in H).
  split; [done|].
  rewrite save_session_after, files_after_save.
  destruct (written_file sid w); [|done]. by rewrite lookup_insert_ne.
Qed.

(** ** Loading, again *)

Lemma load_session_world (sid : string) (w : world) :
  snd (load_session sid w) = w
  \/ exists s, snd (load_session sid w)
               = with_sessions (<[sid := s]> (sessions_data w)) w.
Proof.
  destruct (files (disk w) !! _get_session_file sid) as [f|] eqn:Hf.
  - destruct (read_fault (disk w) (_get_session_file sid)) as [msg|] eqn:Hr.
    { left. rewrite (load_session_read_fault sid w msg); eauto. }
    destruct f as [v|msg].
    + destruct v as [| | | | |d];
        try (left; by rewrite (load_session_not_object sid w _ Hr Hf)).
      right.
      destruct (Py.len (default (PList []) (Py.dict_lookup "conversation" d)))
        as [n|e] eqn:Hn.
      * rewrite (load_session_object sid w d n Hr Hf Hn). eauto.
      * rewrite (load_session_object_unsized sid w d e Hr Hf Hn). eauto.
    + left. by rewrite (load_session_corrupt sid w msg).
  - left. by rewrite load_session_missing.
Qed.

(** X16.  [load_session] touches the named session only: whatever the
    record file holds and whatever the outcome, the session stored under
    any other identifier, the current session identifier and the files
    are what they were. *)
Theorem load_session_touches_one_session (sid : string) (w : world) :
  (forall sid', sid' <> sid ->
     sessions_data (snd (load_session sid w)) !! sid' = sessions_data w !! sid')
  /\ current_session_id (snd (load_session sid w)) = current_session_id w
  /\ disk (snd (load_session sid w)) = disk w.
Proof.
  destruct (load_session_world sid w) as [->|[s ->]]; [done|].
  split; [|done]. intros sid' Hne. simpl. by rewrite lookup_insert_ne.
Qed.

(** ** Resetting *)

Lemma reset_session_eq (sid : string) (w : world) :
  reset_session sid w
  = (Ret ("Session " +:+ sid +:+ " reset successfully"),
     after_save sid
       (with_sessions (<[sid := empty_session]> (sessions_data w)) w)).
Proof.
  unfold reset_session, bind, try_except, modify, ret.
  rewrite (save_session_pair sid).
  destruct (save_session_returns sid
              (with_sessions (<[sid := empty_session]> (sessions_data w)) w))
    as [s ->].
  done.
Qed.

Lemma session_of_insert (sid sid' : string) (s : session) (w : world) :
  session_of (with_sessions (<[sid := s]> (sessions_data w)) w) sid'
  = if decide (sid = sid') then s else session_of w sid'.
Proof.
  unfold session_of. simpl. rewrite lookup_insert. by case_decide.
Qed.

(** X1.  [reset_session] always answers that the reset succeeded, also
    when the record file could not be written.  Afterwards the session
    is the empty one, every other session and the current session
    identifier are what they were, and the record file holds the empty
    session if the write went through, else what the failed write left. *)
Theorem reset_session_empties_one_session (sid : string) (w : world) :
  let after := snd (reset_session sid w) in
  fst (reset_session sid w) = Ret ("Session " +:+ sid +:+ " reset successfully")
  /\ sessions_data after !! sid = Some empty_session
  /\ (forall sid', sid' <> sid ->
        sessions_data after !! sid' = sessions_data w !! sid')
  /\ current_session_id after = current_session_id w
  /\ files (disk after) !! _get_session_file sid
     = match write_fault (disk w) (_get_session_file sid) with
       | None => Some (FJson (record_of sid empty_session))
       | Some flt =>
           match write_residue flt with
           | Some f => Some f
           | None => files (disk w) !! _get_session_file sid
           end
       end.
Proof.
  intros after. subst after. rewrite reset_session_eq. cbn [fst snd].
  set (w1 := with_sessions (<[sid := empty_session]> (sessions_data w)) w).
  assert (Hk : touch sid w1 = w1).
  { apply touch_known. subst w1. simpl. rewrite lookup_insert_eq. eauto. }
  assert (Hs : sessions_data (after_save sid w1) = sessions_data w1
               /\ current_session_id (after_save sid w1) = current_session_id w).
  { unfold after_save. rewrite Hk. by destruct (written_file sid w1). }
  destruct Hs as [Hs Hc]. rewrite Hs, Hc.
  split; [done|]. split; [subst w1; simpl; by rewrite lookup_insert_eq|].
  split; [intros sid' Hne; subst w1; simpl; by rewrite lookup_insert_ne|].
  split; [done|].
  rewrite files_after_save. unfold written_file.
  assert (He : session_of w1 sid = empty_session).
  { subst w1. rewrite session_of_insert. by case_decide. }
  rewrite He. change (disk w1) with (disk w).
  destruct (write_fault (disk w) (_get_session_file sid)) as [[msg [f|]]|];
    cbn [write_residue]; by rewrite ?lookup_insert_eq.
Qed.

(** X2.  A reset lasts: when the record file can be written and read,
    [load_session] in a restarted process reports success and brings
    back the empty session, whatever the session held before the reset
    and whatever record was on disk. *)
Theorem reset_session_is_durable (sid : string) (w : world) :
  write_fault (disk w) (_get_session_file sid) = None ->
  read_fault (disk w) (_get_session_file sid) = None ->
  let restarted := restart (snd (reset_session sid w)) in
  fst (load_session sid restarted)
  = Ret ("Session " +:+ sid +:+ " loaded successfully")
  /\ sessions_data (snd (load_session sid restarted)) !! sid
     = Some empty_session.
Proof.
  intros Hw Hr restarted. subst restarted.
  rewrite reset_session_eq. cbn [snd].
  set (w1 := with_sessions (<[sid := empty_session]> (sessions_data w)) w).
  assert (He : session_of w1 sid = empty_session).
  { subst w1. rewrite session_of_insert. by case_decide. }
  assert (Hwf : written_file sid w1 = Some (FJson (record_of sid empty_session))).
  { unfold written_file. change (disk w1) with (disk w). by rewrite Hw, He. }
  rewrite (load_session_object sid _
             [("session_id", PStr sid);
              ("onboarding_data", empty_onboarding_state);
              ("conversation", PList [])] 0).
  - cbn [fst snd]. split; [done|]. simpl. by rewrite lookup_insert_eq.
  - cbn [restart fresh_process disk]. by rewrite read_fault_after_save.
  - cbn [restart fresh_process disk]. rewrite files_after_save, Hwf.
    by rewrite lookup_insert_eq.
  - done.
Qed.

(** ** Saving the current session *)

(** X3.  [force_save_session] drops the result of [save_session]: it
    answers that the session was force saved in every case, also when
    the write failed, where [save_current_session], which does the same
    to the store and the files, returns the failure. *)
Theorem force_save_session_hides_failure (w : world) :
  fst (force_save_session w)
  = Ret ("Session " +:+ current_session_id w +:+ " force saved successfully")
  /\ snd (force_save_session w) = snd (save_current_session w)
  /\ (forall flt,
        write_fault (disk w) (_get_session_file (current_session_id w)) = Some flt ->
        fst (save_current_session w)
        = Ret ("Failed to save session: " +:+ write_msg flt)
        /\ files (disk (snd (force_save_session w)))
             !! _get_session_file (current_session_id w)
           = match write_residue flt with
             | Some f => Some f
             | None => files (disk w) !! _get_session_file (current_session_id w)
             end).
Proof.
  unfold force_save_session, save_current_session, bind, gets, try_except, ret.
  rewrite (save_session_pair (current_session_id w) w).
  destruct (save_session_returns (current_session_id w) w) as [s Hs].
  rewrite Hs. cbn [fst snd]. split; [done|]. split; [done|].
  intros flt Hf. split.
  - rewrite <- Hs. by apply save_session_fault.
  - rewrite files_after_save. unfold written_file. rewrite Hf.
    destruct (write_residue flt); by rewrite ?lookup_insert_eq.
Qed.

(** ** Logging, again *)

Lemma lookup_after_append (sid sid' : string) (l : list pyval) (e : pyval)
    (w : world) :
  sessions_data (after_append sid l e w) !! sid'
  = if decide (sid = sid')
    then Some (Session (onboarding_state (session_of w sid)) (PList (l ++ [e])))
    else sessions_data w !! sid'.
Proof.
  unfold after_append. cbn [with_sessions sessions_data].
  case_decide as Hd.
  - subst sid'. by rewrite lookup_alter_eq, lookup_touch.
  - rewrite lookup_alter_ne by done. unfold touch.
    destruct (sessions_data w !! sid) eqn:E; [done|].
    cbn [with_sessions sessions_data]. by rewrite lookup_insert_ne.
Qed.

Lemma session_of_after_append (sid sid' : string) (l : list pyval) (e : pyval)
    (w : world) :
  session_of (after_append sid l e w) sid'
  = if decide (sid = sid')
    then Session (onboarding_state (session_of w sid)) (PList (l ++ [e]))
    else session_of w sid'.
Proof.
  unfold session_of at 1. rewrite lookup_after_append. by case_decide.
Qed.

Lemma after_append_rest (sid : string) (l : list pyval) (e : pyval) (w : world) :
  current_session_id (after_append sid l e w) = current_session_id w
  /\ disk (after_append sid l e w) = disk w.
Proof.
  unfold after_append. cbn [with_sessions current_session_id disk].
  by rewrite touch_current, touch_disk.
Qed.

Lemma log_message_with_session_list
    (now sid speaker text : string) (w : world) (l : list pyval) :
  conversation_log (session_of w sid) = PList l ->
  log_message_with_session now sid speaker text w
  = (Ret ("Message logged successfully for session " +:+ sid),
     after_append sid l (message_entry speaker text now) w).
Proof.
  intros Hl. unfold log_message_with_session, bind, try_except, ret.
  by rewrite get_conversation_log_eq, Hl.
Qed.

Lemma log_message_with_session_other
    (now sid speaker text : string) (w : world) :
  (forall l, conversation_log (session_of w sid) <> PList l) ->
  log_message_with_session now sid speaker text w
  = (Ret ("Failed to log message: '"
          +:+ Py.type_name (conversation_log (session_of w sid))
          +:+ "' object has no attribute 'append'"),
     touch sid w).
Proof.
  intros Hl. unfold log_message_with_session, bind, try_except, ret.
  rewrite get_conversation_log_eq.
  destruct (conversation_log (session_of w sid)) as [| | | |l|]; try done.
  by destruct (Hl l).
Qed.

Lemma log_message_is_with_session (now speaker text : string) (w : world) :
  log_message now speaker text w
  = log_message_with_session now (current_session_id w) speaker text w.
Proof. reflexivity. Qed.

(** X6.  [log_message_with_session] appends to the named session and to
    nothing else: when the log of the session is a list, the call
    returns its confirmation, the log is the old list followed by one
    entry with the given speaker, text and time, the onboarding state of
    the session is kept, and the other sessions, the current session
    identifier and the files are what they were.  [log_message] is the
    same call on the current session. *)
Theorem log_message_with_session_appends_last
    (now sid speaker text : string) (w : world) (l : list pyval) :
  conversation_log (session_of w sid) = PList l ->
  let after := snd (log_message_with_session now sid speaker text w) in
  fst (log_message_with_session now sid speaker text w)
  = Ret ("Message logged successfully for session " +:+ sid)
  /\ sessions_data after !! sid
     = Some (Session (onboarding_state (session_of w sid))
               (PList (l ++ [message_entry speaker text now])))
  /\ (forall sid', sid' <> sid ->
        sessions_data after !! sid' = sessions_data w !! sid')
  /\ current_session_id after = current_session_id w
  /\ disk after = disk w
  /\ (sid = current_session_id w ->
      log_message now speaker text w
      = log_message_with_session now sid speaker text w).
Proof.
  intros Hl after. subst after.
  rewrite (log_message_with_session_list now sid speaker text w l Hl).
  cbn [fst snd].
  destruct (after_append_rest sid l (message_entry speaker text now) w)
    as [Hc Hd].
  split; [done|]. split.
  { rewrite lookup_after_append. by case_decide. }
  split.
  { intros sid' Hne. rewrite lookup_after_append. case_decide; congruence. }
  split; [done|]. split; [done|].
  intros ->. rewrite log_message_is_with_session.
  by rewrite (log_message_with_session_list now _ speaker text w l Hl).
Qed.

(** X7.  A log that is not a list cannot be appended to, and the fault
    does not leave the tool: [log_message_with_session] and [log_message]
    return ["Failed to log message: ..."] with the message of the
    attribute error, and the session of every identifier, the current
    session identifier and the files are what they were. *)
Theorem log_message_on_broken_log
    (now sid speaker text : string) (w : world) :
  (forall l, conversation_log (session_of w sid) <> PList l) ->
  let failure :=
    Ret ("Failed to log message: '"
         +:+ Py.type_name (conversation_log (session_of w sid))
         +:+ "' object has no attribute 'append'") in
  let after := snd (log_message_with_session now sid speaker text w) in
  fst (log_message_with_session now sid speaker text w) = failure
  /\ (forall sid', session_of after sid' = session_of w sid')
  /\ current_session_id after = current_session_id w
  /\ disk after = disk w
  /\ (sid = current_session_id w ->
      fst (log_message now speaker text w) = failure).
Proof.
  intros Hl failure after. subst failure after.
  rewrite (log_message_with_session_other now sid speaker text w Hl).
  cbn [fst snd].
  split; [done|].
  split; [intros; apply session_of_touch|].
  split; [apply touch_current|]. split; [apply touch_disk|].
  intros ->. rewrite log_message_is_with_session.
  by rewrite (log_message_with_session_other now _ speaker text w Hl).
Qed.






(** ** The hooks of the agent *)



(** The two tool calls every hook makes. *)
Lemma log_then_save
    (sid now speaker text : string) (w : world) (l : list pyval) :
  conversation_log (session_of w sid) = PList l ->
  try_except
    (log_message_with_session now sid speaker text ;;;
     save_session sid ;;;
     ret tt)
    (fun _ => ret tt) w
  = (Ret tt,
     after_save sid (after_append sid l (message_entry speaker text now) w)).
Proof.
  intros Hl. unfold try_except, bind.
  rewrite (log_message_with_session_list now sid speaker text w l Hl).
  rewrite (save_session_pair sid).
  by destruct (save_session_returns sid
                 (after_append sid l (message_entry speaker text now) w))
    as [s ->].
Qed.

(** What holds after the two calls. *)
Lemma logged_and_saved
    (sid : string) (e : pyval) (w : world) (l : list pyval) :
  let after := after_save sid (after_append sid l e w) in
  session_of after sid
  = Session (onboarding_state (session_of w sid)) (PList (l ++ [e]))
  /\ (forall sid', sid' <> sid -> session_of after sid' = session_of w sid')
  /\ current_session_id after = current_session_id w
  /\ (write_fault (disk w) (_get_session_file sid) = None ->
      files (disk after) !! _get_session_file sid
      = Some (FJson (record_of sid (session_of after sid)))).
Proof.
  intros after. subst after.
  destruct (after_append_rest sid l e w) as [Hc Hd].
  split; [|split; [|split]].
  - rewrite session_of_after_save, session_of_after_append. by case_decide.
  - intros sid' Hne.
    rewrite session_of_after_save, session_of_after_append.
    case_decide; congruence.
  - unfold after_save. destruct (written_file _ _); simpl;
      by rewrite ?touch_current, Hc.
  - intros Hw. rewrite files_after_save, session_of_after_save.
    unfold written_file. rewrite Hd, Hw. by rewrite lookup_insert_eq.
Qed.


(** X18.  The three speech hooks have no test for blank text: whatever
    the text, also an empty one, each appends one entry with that text
    to the log of the session of the assistant, as the user for
    [on_user_speech_end], as the assistant for [on_agent_speech_end] and
    as the speaker decided from the participant for
    [on_participant_speech_end], and saves; when the write does not fail
    the record file then holds the session as it is in memory. *)
Theorem speech_hooks_log_any_text
    (sid now text : string) (p : participant) (w : world) (l : list pyval) :
  conversation_log (session_of w sid) = PList l ->
  let logged (speaker : string) (after : world) :=
    session_of after sid
    = Session (onboarding_state (session_of w sid))
        (PList (l ++ [message_entry speaker text now]))
    /\ (forall sid', sid' <> sid -> session_of after sid' = session_of w sid')
    /\ current_session_id after = current_session_id w
    /\ (write_fault (disk w) (_get_session_file sid) = None ->
        files (disk after) !! _get_session_file sid
        = Some (FJson (record_of sid (session_of after sid)))) in
  logged "user" (snd (on_user_speech_end sid now text w))
  /\ logged "assistant" (snd (on_agent_speech_end sid now text w))
  /\ logged (speech_end_speaker p) (snd (on_participant_speech_end sid now p text w)).
Proof.
  intros Hl logged. subst logged.
  unfold on_user_speech_end, on_agent_speech_end, on_participant_speech_end.
  rewrite !(log_then_save sid now _ text w l Hl). cbn [snd].
  split; [|split]; apply logged_and_saved.
Qed.


(** ** The conversation history *)

Section HistoryFacts.

Variable py_repr : pyval -> string.

Lemma history_parts_dicts (ds : list pydict) :
  forall i, exists parts,
    history_parts py_repr i (List.map PDict ds) = Ret parts
    /\ length parts = length ds
    /\ forall k d, ds !! k = Some d ->
         parts !! k = Some (entry_line py_repr (i + k) d).
Proof.
  induction ds as [|d ds IH]; intros i.
  - exists []. by split.
  - destruct (IH (S i)) as (parts & Hp & Hlen & Hk).
    exists (entry_line py_repr i d :: parts).
    cbn [List.map history_parts Py.get]. rewrite Hp.
    split; [done|]. split; [simpl; by rewrite Hlen|].
    intros [|k] d' Hd; simpl in *.
    + injection Hd as <-. by rewrite Nat.add_0_r.
    + rewrite (Hk k d' Hd). do 2 f_equal. lia.
Qed.

Lemma history_parts_bad_entry (l1 : list pydict) (v : pyval) (l2 : list pyval) :
  (forall d, v <> PDict d) ->
  forall i,
    history_parts py_repr i (List.map PDict l1 ++ v :: l2)
    = Raise (Py.no_attribute v "get").
Proof.
  intros Hv. induction l1 as [|d l1 IH]; intros i.
  - simpl. destruct v; try done. by destruct (Hv d).
  - cbn [List.map app history_parts Py.get]. by rewrite IH.
Qed.

(** X10.  The history lists the log in order, numbered from 1.  With no
    entry in the log the answer is ["No conversation history yet"].
    With a log of entries that are dicts, the answer is a heading with
    the number of entries and then one line for each entry, in the order
    of the log: the line for the entry at position [k] (from 0) starts
    with [k + 1] and shows speaker, text and time of that entry, with
    ["unknown"] for a missing speaker and an empty text or time for a
    missing one.  For an entry as [log_message] makes it the line is
    ["<k+1>. [<speaker>] <text> (at <time>)"]. *)
Theorem conversation_history_numbers_entries (w : world) (ds : list pydict) :
  conversation_log (session_of w (current_session_id w))
  = PList (List.map PDict ds) ->
  (ds = [] ->
   fst (get_conversation_history py_repr w) = Ret "No conversation history yet")
  /\ (ds <> [] ->
      exists lines,
        fst (get_conversation_history py_repr w)
        = Ret ("Conversation history (" +:+ decimal (length ds)
               +:+ " messages):" +:+ newline +:+ Str.join newline lines)
        /\ length lines = length ds
        /\ (forall k d, ds !! k = Some d ->
              lines !! k = Some (entry_line py_repr k d))
        /\ (forall k speaker text timestamp,
              ds !! k = Some [("speaker", PStr speaker); ("text", PStr text);
                              ("timestamp", PStr timestamp)] ->
              lines !! k
              = Some (decimal (k + 1) +:+ ". [" +:+ speaker +:+ "] " +:+ text
                      +:+ " (at " +:+ timestamp +:+ ")"))).
Proof.
  intros Hl. unfold get_conversation_history, bind, gets, try_except, lift, ret.
  rewrite get_conversation_log_eq, Hl. split.
  - by intros ->.
  - intros Hne. destruct ds as [|d ds]; [done|].
    destruct (history_parts_dicts (d :: ds) 0) as (lines & Hp & Hlen & Hk).
    exists lines. cbn [Py.truthy List.map negb iterate].
    change (PDict d :: List.map PDict ds) with (List.map PDict (d :: ds)).
    rewrite Hp. cbn [fst Py.len]. rewrite length_map.
    split; [done|]. split; [done|]. split; [exact Hk|].
    intros k speaker text timestamp Hd. by rewrite (Hk k _ Hd).
Qed.

(** X11.  [get_conversation_history] never raises and changes nothing
    but the get-or-create of the current session.  When the log is a
    list and its first entry that is not a dict is [v], the answer is
    ["Failed to get conversation history: "] with the attribute error
    for the type of [v]; nothing of the entries before it is shown. *)
Theorem conversation_history_contains_faults (w : world) :
  (exists s, fst (get_conversation_history py_repr w) = Ret s)
  /\ snd (get_conversation_history py_repr w) = touch (current_session_id w) w
  /\ (forall (l1 : list pydict) (v : pyval) (l2 : list pyval),
        conversation_log (session_of w (current_session_id w))
        = PList (List.map PDict l1 ++ v :: l2) ->
        (forall d, v <> PDict d) ->
        fst (get_conversation_history py_repr w)
        = Ret ("Failed to get conversation history: '" +:+ Py.type_name v
               +:+ "' object has no attribute 'get'")).
Proof.
  unfold get_conversation_history, bind, gets, try_except, lift, ret.
  rewrite get_conversation_log_eq.
  set (log := conversation_log (session_of w (current_session_id w))).
  split; [|split].
  - destruct (Py.truthy log); cbn [negb fst snd]; [|eauto].
    destruct (iterate log) as [entries|e]; cbn [fst snd]; [|eauto].
    destruct (history_parts py_repr 0 entries); cbn [fst snd]; [|eauto].
    destruct (Py.len log); cbn [fst snd]; eauto.
  - destruct (Py.truthy log); cbn [negb fst snd]; [|done].
    destruct (iterate log) as [entries|e]; cbn [fst snd]; [|done].
    destruct (history_parts py_repr 0 entries); cbn [fst snd]; [|done].
    by destruct (Py.len log).
  - intros l1 v l2 Hlog Hv. rewrite Hlog.
    assert (Ht : Py.truthy (PList (List.map PDict l1 ++ v :: l2)) = true)
      by (by destruct l1).
    rewrite Ht. cbn [negb iterate].
    by rewrite (history_parts_bad_entry l1 v l2 Hv).
Qed.

End HistoryFacts.

(** ** Validation and storage, again *)

Section MoreToolFacts.

Variable email_ok : string -> bool.
Variable country_names : list string.
Variable validation_error_str : pydict -> string.
Variable py_repr : pyval -> string.

Local Abbreviation validate := (validate_field email_ok country_names validation_error_str).
Local Abbreviation store := (store_field email_ok country_names validation_error_str).
Local Abbreviation outcome := (validate_against email_ok country_names validation_error_str).
Local Abbreviation valid := (model_valid email_ok country_names).

Lemma keys_dict_set (k : string) (x : pyval) (d : pydict) :
  Py.dict_has k d = true -> keys (Py.dict_set k x d) = keys d.
Proof.
  unfold Py.dict_has, keys. induction d as [|[k' v'] d IH]; [done|].
  simpl. destruct (String.eqb k k') eqn:E; simpl.
  - intros _. apply String.eqb_eq in E. by subst k'.
  - intros H. by rewrite IH.
Qed.

Lemma store_field_world (f v : string) (w : world) :
  (refused f (fst (store f v w))
   /\ snd (store f v w) = touch (current_session_id w) w)
  \/ exists d,
       onboarding_state (session_of w (current_session_id w)) = PDict d
       /\ Py.dict_has f d = true
       /\ valid (Py.dict_set f (PStr v) d) = true
       /\ store f v w
          = (Ret (Str.capitalize f +:+ " stored successfully: " +:+ v),
             stored_world f v d w).
Proof.
  destruct (outcome_cases email_ok country_names validation_error_str
              (onboarding_state (session_of w (current_session_id w))) f v)
    as [Hacc|Hrej].
  - right. apply outcome_accepts in Hacc as (d & Hob & Hf & Hv).
    exists d. split; [done|]. split; [done|]. split; [done|].
    by apply store_field_accepted.
  - left. by apply store_field_rejected.
Qed.

Lemma stored_world_other (f v : string) (d : pydict) (w : world) (sid' : string) :
  sid' <> current_session_id w ->
  session_of (stored_world f v d w) sid' = session_of w sid'.
Proof.
  intros Hne. unfold stored_world, session_of at 1.
  cbn [with_sessions sessions_data].
  rewrite lookup_alter_ne by done.
  fold (session_of (touch (current_session_id w) w) sid').
  apply session_of_touch.
Qed.

Lemma stored_world_disk (f v : string) (d : pydict) (w : world) :
  disk (stored_world f v d w) = disk w.
Proof. unfold stored_world. simpl. apply touch_disk. Qed.

Lemma dict_set_idem (k : string) (x : pyval) (d : pydict) :
  Py.dict_set k x (Py.dict_set k x d) = Py.dict_set k x d.
Proof.
  induction d as [|[k' v'] d IH]; simpl.
  - by rewrite String.eqb_refl.
  - destruct (String.eqb k k') eqn:E; simpl.
    + by rewrite String.eqb_refl.
    + by rewrite E, IH.
Qed.

Lemma dict_has_set (k : string) (x : pyval) (d : pydict) :
  Py.dict_has k (Py.dict_set k x d) = true.
Proof. unfold Py.dict_has. by rewrite dict_lookup_set_eq. Qed.

(** X12.  What [store_field] keeps.  On an onboarding state that is a
    dict, whatever the field and the value and whether the value is
    stored or refused: the state afterwards is a dict with the same keys
    in the same order, every other key has the value it had, and the
    conversation log, the other sessions, the current session identifier
    and the files are untouched.  A value that [validate_field] accepted
    is accepted again in the state the store leaves: the stored state
    passes the validation it was stored under. *)
Theorem store_field_keeps_shape (f v : string) (w : world) (d : pydict) :
  onboarding_state (session_of w (current_session_id w)) = PDict d ->
  let sid := current_session_id w in
  let after := snd (store f v w) in
  exists d',
    onboarding_state (session_of after sid) = PDict d'
    /\ keys d' = keys d
    /\ (forall k, k <> f -> Py.dict_lookup k d' = Py.dict_lookup k d)
    /\ (fst (validate f v w) = Ret ("Valid " +:+ f +:+ ": " +:+ v) ->
        Py.dict_lookup f d' = Some (PStr v)
        /\ fst (validate f v after) = Ret ("Valid " +:+ f +:+ ": " +:+ v))
    /\ conversation_log (session_of after sid)
       = conversation_log (session_of w sid)
    /\ (forall sid', sid' <> sid -> session_of after sid' = session_of w sid')
    /\ current_session_id after = sid
    /\ disk after = disk w.
Proof.
  intros Hob sid after. subst after sid.
  destruct (outcome_cases email_ok country_names validation_error_str
              (onboarding_state (session_of w (current_session_id w))) f v)
    as [Hacc|Hrej].
  2:{ destruct (store_field_rejected email_ok country_names validation_error_str
                  f v w Hrej) as [_ ->].
      exists d. rewrite session_of_touch, touch_current, touch_disk.
      split; [done|]. split; [done|]. split; [done|]. split.
      { intros Hv. rewrite validate_field_eq in Hv. cbn [fst] in Hv.
        by destruct (rejected_not_accepted _ f v Hrej). }
      split; [done|]. split; [|done]. intros. apply session_of_touch. }
  apply outcome_accepts in Hacc as (d0 & Hob0 & Hf & Hv).
  rewrite (store_field_accepted email_ok country_names validation_error_str
             f v w d0 Hob0 Hf Hv).
  rewrite Hob in Hob0. injection Hob0 as <-. cbn [snd].
    exists (Py.dict_set f (PStr v) d).
    rewrite session_of_stored_world, stored_world_current, stored_world_disk.
    split; [done|]. split; [by apply keys_dict_set|].
    split; [intros k Hk; by apply dict_lookup_set_ne|].
    split.
    { intros _. split; [apply dict_lookup_set_eq|].
      rewrite validate_field_eq, stored_world_current, session_of_stored_world.
      cbn [fst onboarding_state]. apply outcome_accepts.
      exists (Py.dict_set f (PStr v) d).
      split; [done|]. split; [apply dict_has_set|]. by rewrite dict_set_idem. }
    split; [done|]. split; [|done].
    intros sid' Hne. by apply stored_world_other.
Qed.

Lemma field_value_no_fields (k : string) :
  field_value
    [("name", PNone); ("email", PNone); ("phone", PNone); ("country", PNone)] k
  = PNone.
Proof.
  unfold field_value. cbn [Py.dict_lookup].
  destruct (String.eqb k "name"); [done|].
  destruct (String.eqb k "email"); [done|].
  destruct (String.eqb k "phone"); [done|].
  by destruct (String.eqb k "country").
Qed.

Lemma rule_fails_in_any_state (g x : string) (d : pydict) :
  is_field g ->
  valid (Py.dict_set g (PStr x)
           [("name", PNone); ("email", PNone); ("phone", PNone); ("country", PNone)])
  = false ->
  field_value d g = PStr x ->
  valid d = false.
Proof.
  intros Hg H Hfv. unfold model_valid in *.
  destruct Hg as [->|[->|[->| ->]]]; rewrite Hfv;
    rewrite field_value_set_eq in H;
    rewrite !field_value_set_ne in H by discriminate;
    rewrite !field_value_no_fields in H;
    cbn [optional_str andb] in H; rewrite ?andb_true_r in H;
    cbn [optional_str]; rewrite H; by rewrite ?andb_false_r.
Qed.

(** X13.  The whole state is validated, not the one field.  Let [x] be
    a text that [validate_field] rejects for one of the four fields [g]
    in a session with no field set, so that [x] itself fails the rule
    of [g].  Then in every session in which [g] holds [x], the
    validation of any value for any other field fails and [store_field]
    refuses to store it; the sessions stay as they are. *)
Theorem invalid_field_blocks_the_others
    (f g v x : string) (w0 w : world) (d : pydict) :
  is_field g ->
  onboarding_state (session_of w0 (current_session_id w0))
  = empty_onboarding_state ->
  rejected (fst (validate g x w0)) ->
  onboarding_state (session_of w (current_session_id w)) = PDict d ->
  Py.dict_lookup g d = Some (PStr x) ->
  f <> g ->
  rejected (fst (validate f v w))
  /\ refused f (fst (store f v w))
  /\ forall sid', session_of (snd (store f v w)) sid' = session_of w sid'.
Proof.
  intros Hg Hob0 Hrej0 Hob Hx Hne.
  assert (H0 : valid (Py.dict_set g (PStr x)
                        [("name", PNone); ("email", PNone);
                         ("phone", PNone); ("country", PNone)]) = false).
  { rewrite validate_field_eq, Hob0 in Hrej0. cbn [fst] in Hrej0.
    unfold validate_against, empty_onboarding_state, onboarding_fields in Hrej0.
    cbn [Py.has_item Py.copy Py.setitem] in Hrej0.
    assert (Hk : Py.dict_has g [("name", PNone); ("email", PNone);
                                ("phone", PNone); ("country", PNone)] = true)
      by (by destruct Hg as [->|[->|[->| ->]]]).
    rewrite Hk in Hrej0.
    destruct (valid _) eqn:E; [|done]. by simpl in Hrej0. }
  assert (Hv : valid (Py.dict_set f (PStr v) d) = false).
  { apply (rule_fails_in_any_state g x); [done|done|].
    rewrite (field_value_set_ne f g (PStr v) d Hne).
    unfold field_value. by rewrite Hx. }
  assert (Hrej : rejected (outcome (PDict d) f v)).
  { unfold validate_against. cbn [Py.has_item Py.copy Py.setitem].
    destruct (Py.dict_has f d); [|done]. by rewrite Hv. }
  rewrite validate_field_eq, Hob. cbn [fst]. split; [done|].
  rewrite <- Hob in Hrej.
  destruct (store_field_rejected email_ok country_names validation_error_str
              f v w Hrej) as [Href Hw].
  split; [done|]. intros sid'. rewrite Hw. apply session_of_touch.
Qed.

(** X20.  A field name that is no key of the onboarding state is turned
    down before any validation: in a state with the four keys, for every
    name other than [name], [email], [phone] and [country] (these exact
    spellings) and for every value, [validate_field] and [store_field]
    both return the ["Invalid field: ..."] message, and the sessions
    stay as they are. *)
Theorem unknown_field_is_turned_down
    (f v : string) (w : world) (n e p c : pyval) :
  onboarding_state (session_of w (current_session_id w))
  = onboarding_fields n e p c ->
  ~ is_field f ->
  fst (validate f v w) = Ret (invalid_field_message f)
  /\ fst (store f v w) = Ret (invalid_field_message f)
  /\ (forall sid', session_of (snd (store f v w)) sid' = session_of w sid').
Proof.
  intros Hob Hf.
  assert (Hk : Py.dict_has f [("name", n); ("email", e); ("phone", p); ("country", c)]
               = false).
  { unfold Py.dict_has. cbn [Py.dict_lookup].
    destruct (String.eqb f "name") eqn:E1;
      [apply String.eqb_eq in E1; destruct Hf; unfold is_field; auto|].
    destruct (String.eqb f "email") eqn:E2;
      [apply String.eqb_eq in E2; destruct Hf; unfold is_field; auto|].
    destruct (String.eqb f "phone") eqn:E3;
      [apply String.eqb_eq in E3; destruct Hf; unfold is_field; auto|].
    destruct (String.eqb f "country") eqn:E4;
      [apply String.eqb_eq in E4; destruct Hf; unfold is_field; auto|].
    done. }
  rewrite validate_field_eq, Hob. unfold validate_against, onboarding_fields.
  cbn [Py.has_item fst]. rewrite Hk. split; [done|].
  unfold store_field, bind, gets, lift, ret.
  rewrite get_onboarding_state_eq, Hob. unfold onboarding_fields.
  cbn [Py.has_item]. rewrite Hk. cbn [negb fst snd]. split; [done|].
  intros sid'. apply session_of_touch.
Qed.

Lemma validate_country_lower (v v' : string) :
  Str.lower v = Str.lower v' ->
  validate_country country_names v = validate_country country_names v'.
Proof. intros H. unfold validate_country. by rewrite H. Qed.

Lemma validate_country_name (n : string) :
  In n country_names -> validate_country country_names n = true.
Proof.
  intros Hn. unfold validate_country. apply existsb_exists.
  exists (Str.lower n). split; [by apply in_map|apply String.eqb_refl].
Qed.

Lemma valid_country_only (d : pydict) (v v' : string) :
  validate_country country_names v' = true ->
  valid (Py.dict_set "country" (PStr v) d) = true ->
  valid (Py.dict_set "country" (PStr v') d) = true.
Proof.
  unfold model_valid. rewrite !field_value_set_eq.
  rewrite !(field_value_set_ne "country") by discriminate.
  cbn [optional_str]. rewrite !andb_true_iff. intros H' [H _]. by split.
Qed.

(** X21.  The country check.  Every name of the country table is
    accepted by [validate_field] in a session in which any country at all
    is accepted.  And the check does not look at the case of the letters
    A to Z: two texts that are equal once those letters are put in lower
    case are accepted together or rejected together. *)
Theorem country_check_ignores_letter_case (w : world) :
  (forall n v0,
     In n country_names ->
     fst (validate "country" v0 w) = Ret ("Valid country: " +:+ v0) ->
     fst (validate "country" n w) = Ret ("Valid country: " +:+ n))
  /\ (forall v v',
        Str.lower v = Str.lower v' ->
        (fst (validate "country" v w) = Ret ("Valid country: " +:+ v)
         <-> fst (validate "country" v' w) = Ret ("Valid country: " +:+ v'))).
Proof.
  assert (Hstep : forall v v',
            validate_country country_names v' = true ->
            fst (validate "country" v w) = Ret ("Valid country: " +:+ v) ->
            fst (validate "country" v' w) = Ret ("Valid country: " +:+ v')).
  { intros v v' Hc. rewrite !validate_field_eq. cbn [fst].
    change ("Valid country: " +:+ v) with ("Valid " +:+ "country" +:+ ": " +:+ v).
    change ("Valid country: " +:+ v') with ("Valid " +:+ "country" +:+ ": " +:+ v').
    rewrite !outcome_accepts. intros (d & Hob & Hk & Hv).
    exists d. split; [done|]. split; [done|]. by apply (valid_country_only d v). }
  assert (Hacc : forall v,
            fst (validate "country" v w) = Ret ("Valid country: " +:+ v) ->
            validate_country country_names v = true).
  { intros v. rewrite validate_field_eq. cbn [fst].
    change ("Valid country: " +:+ v) with ("Valid " +:+ "country" +:+ ": " +:+ v).
    rewrite outcome_accepts. intros (d & _ & _ & Hv).
    unfold model_valid in Hv. rewrite field_value_set_eq in Hv.
    rewrite !andb_true_iff in Hv. by destruct Hv as [_ Hv]. }
  split.
  - intros n v0 Hn. apply Hstep. by apply validate_country_name.
  - intros v v' Hl. split; intros H.
    + apply (Hstep v v'); [|done].
      rewrite <- (validate_country_lower v v' Hl). by apply Hacc.
    + apply (Hstep v' v); [|done].
      rewrite (validate_country_lower v v' Hl). by apply Hacc.
Qed.

(** X9.  A stored field shows in the summary: after [store_field] has
    stored a value for one of the four fields, [get_summary] answers
    ["Collected data: ..."] and its list has the part
    ["<Field>: <value>"] (the library assumptions exclude an accepted
    empty string). *)
Theorem summary_lists_stored_field
    (Hemail : email_ok "" = false) (Hcountry : ~ In "" country_names)
    (f v : string) (w : world) :
  is_field f ->
  fst (validate f v w) = Ret ("Valid " +:+ f +:+ ": " +:+ v) ->
  fst (store f v w) = Ret (Str.capitalize f +:+ " stored successfully: " +:+ v)
  /\ exists parts,
       fst (get_summary py_repr (snd (store f v w)))
       = Ret ("Collected data: " +:+ Str.join ", " parts)
       /\ In (Str.capitalize f +:+ ": " +:+ v) parts.
Proof.
  intros Hf Hacc. rewrite validate_field_eq in Hacc. cbn [fst] in Hacc.
  apply outcome_accepts in Hacc as (d & Hob & Hk & Hv).
  rewrite (store_field_accepted email_ok country_names validation_error_str
             f v w d Hob Hk Hv). cbn [fst snd]. split; [done|].
  assert (Hne : v <> "").
  { destruct Hf as [->|[->|[->| ->]]].
    - by apply (valid_name_nonempty email_ok country_names d).
    - by apply (valid_email_nonempty email_ok country_names d).
    - by apply (valid_phone_nonempty email_ok country_names d).
    - by apply (valid_country_nonempty email_ok country_names d). }
  assert (Hin : In (f, PStr v)
                  (List.filter (fun kv => Py.truthy (snd kv))
                     (Py.dict_set f (PStr v) d))).
  { apply filter_In. split; [apply dict_set_in|]. by destruct v. }
  unfold get_summary, bind, gets, lift, ret.
  rewrite get_onboarding_state_eq, stored_world_current, session_of_stored_world.
  cbn [onboarding_state Py.items].
  destruct (List.filter (fun kv => Py.truthy (snd kv)) (Py.dict_set f (PStr v) d))
    as [|kv filled] eqn:E; [done|].
  cbn [fst]. eexists. split; [reflexivity|].
  apply (in_map (summary_part py_repr)) in Hin. exact Hin.
Qed.

Lemma query_world (w : world) :
  snd (is_onboarding_complete w) = touch (current_session_id w) w
  /\ snd (get_summary py_repr w) = touch (current_session_id w) w
  /\ snd (get_current_state py_repr w) = touch (current_session_id w) w.
Proof.
  unfold is_onboarding_complete, get_summary, get_current_state,
    bind, gets, lift, ret.
  rewrite !get_onboarding_state_eq.
  destruct (Py.items _) as [items|e]; cbn [fst snd]; [|done].
  split; [by destruct (missing_fields items)|].
  split; [|done]. by destruct (List.filter _ items).
Qed.

Lemma log_message_with_session_disk (now sid speaker text : string) (w : world) :
  disk (snd (log_message_with_session now sid speaker text w)) = disk w.
Proof.
  destruct (conversation_log (session_of w sid)) as [| | | |l|] eqn:E;
    try (rewrite log_message_with_session_other by (rewrite E; done);
         apply touch_disk).
  rewrite (log_message_with_session_list now sid speaker text w l E).
  apply after_append_rest.
Qed.

(** X14.  Only the saving tools write.  [validate_field],
    [store_field], [log_message], [log_message_with_session] and the
    three queries leave the files as they are, so a stored field or a
    logged message that was not saved is lost by a restart: loading
    after the restart gives what it would have given without the
    call. *)
Theorem unsaved_changes_do_not_reach_the_disk
    (f v now speaker text sid : string) (w : world) :
  disk (snd (validate f v w)) = disk w
  /\ disk (snd (store f v w)) = disk w
  /\ disk (snd (log_message now speaker text w)) = disk w
  /\ disk (snd (log_message_with_session now sid speaker text w)) = disk w
  /\ disk (snd (is_onboarding_complete w)) = disk w
  /\ disk (snd (get_summary py_repr w)) = disk w
  /\ disk (snd (get_current_state py_repr w)) = disk w
  /\ load_session sid (restart (snd (store f v w))) = load_session sid (restart w)
  /\ load_session sid (restart (snd (log_message now speaker text w)))
     = load_session sid (restart w).
Proof.
  assert (Hs : disk (snd (store f v w)) = disk w).
  { destruct (store_field_world f v w) as [[_ ->]|(d & _ & _ & _ & ->)].
    - apply touch_disk.
    - apply stored_world_disk. }
  assert (Hl : disk (snd (log_message now speaker text w)) = disk w).
  { rewrite log_message_is_with_session. apply log_message_with_session_disk. }
  destruct (query_world w) as (Hq1 & Hq2 & Hq3).
  rewrite Hq1, Hq2, Hq3, validate_field_eq. cbn [snd].
  unfold restart. rewrite Hs, Hl, !touch_disk.
  repeat split; try done. apply log_message_with_session_disk.
Qed.

Lemma query_results (w w' : world) :
  session_of w (current_session_id w) = session_of w' (current_session_id w') ->
  fst (is_onboarding_complete w) = fst (is_onboarding_complete w')
  /\ fst (get_summary py_repr w) = fst (get_summary py_repr w')
  /\ fst (get_current_state py_repr w) = fst (get_current_state py_repr w')
  /\ fst (get_conversation_history py_repr w)
     = fst (get_conversation_history py_repr w').
Proof.
  intros H.
  unfold is_onboarding_complete, get_summary, get_current_state,
    get_conversation_history, bind, gets, lift, try_except, ret.
  rewrite !get_onboarding_state_eq, !get_conversation_log_eq, H.
  split; [|split; [|split]].
  - destruct (Py.items _) as [items|e]; cbn [fst snd]; [|done].
    by destruct (missing_fields items).
  - destruct (Py.items _) as [items|e]; cbn [fst snd]; [|done].
    by destruct (List.filter _ items).
  - by destruct (Py.items _) as [items|e].
  - destruct (Py.truthy _); cbn [negb fst snd]; [|done].
    destruct (iterate _) as [entries|e]; cbn [fst snd]; [|done].
    destruct (history_parts py_repr 0 entries); cbn [fst snd]; [|done].
    by destruct (Py.len _).
Qed.

(** X15.  What was saved is what the queries show after a restart.
    When the log of the current session is a list and its record file
    can be written and read, then after [save_current_session], a
    restart, [set_current_session_id] and [load_session] of the same
    identifier, the session is the one that was saved and
    [is_onboarding_complete], [get_summary], [get_current_state] and
    [get_conversation_history] answer what they answered before. *)
Theorem queries_survive_restart (w : world) (l : list pyval) :
  let sid := current_session_id w in
  conversation_log (session_of w sid) = PList l ->
  write_fault (disk w) (_get_session_file sid) = None ->
  read_fault (disk w) (_get_session_file sid) = None ->
  let saved := snd (save_current_session w) in
  let again :=
    snd (load_session sid (snd (set_current_session_id sid (restart saved)))) in
  fst (save_current_session w) = Ret ("Session " +:+ sid +:+ " saved successfully")
  /\ session_of again sid = session_of w sid
  /\ fst (is_onboarding_complete again) = fst (is_onboarding_complete w)
  /\ fst (get_summary py_repr again) = fst (get_summary py_repr w)
  /\ fst (get_current_state py_repr again) = fst (get_current_state py_repr w)
  /\ fst (get_conversation_history py_repr again)
     = fst (get_conversation_history py_repr w).
Proof.
  intros sid Hl Hw Hr saved again. subst saved again.
  unfold save_current_session, bind, gets. fold sid.
  rewrite (save_session_ok sid w (length l) Hw) by (by rewrite Hl).
  cbn [fst snd]. split; [done|].
  rewrite (load_session_object sid _
             [("session_id", PStr sid);
              ("onboarding_data", onboarding_state (session_of w sid));
              ("conversation", conversation_log (session_of w sid))]
             (length l)).
  - cbn [snd].
    set (again := with_sessions _ _).
    assert (Hs : session_of again sid = session_of w sid).
    { subst again. unfold session_of at 1. simpl. rewrite lookup_insert_eq.
      by destruct (session_of w sid). }
    split; [done|]. apply query_results.
    assert (Hc : current_session_id again = sid) by done.
    rewrite Hc. exact Hs.
  - unfold set_current_session_id, modify.
    cbn [snd restart fresh_process with_files disk read_fault].
    by rewrite touch_disk.
  - unfold set_current_session_id, modify.
    cbn [snd restart fresh_process with_files disk files].
    by rewrite lookup_insert_eq.
  - simpl. by rewrite Hl.
Qed.

End MoreToolFacts.

(** ** Instances of the further properties *)

Lemma reset_session_is_durable_witness :
  write_fault (disk Scenario.busy_session) (_get_session_file "s1") = None
  /\ read_fault (disk Scenario.busy_session) (_get_session_file "s1") = None
  /\ sessions_data
       (snd (load_session "s1"
               (restart (snd (reset_session "s1" Scenario.busy_session))))) !! "s1"
     = Some empty_session.
Proof.
  split; [reflexivity|]. split; [reflexivity|].
  apply (reset_session_is_durable "s1" Scenario.busy_session eq_refl eq_refl).
Defined.

Lemma save_session_keeps_other_records_witness :
  "s1" <> "s2"
  /\ files (disk (snd (save_session "s1" Scenario.busy_session)))
       !! _get_session_file "s2"
     = files (disk Scenario.busy_session) !! _get_session_file "s2".
Proof.
  assert (H : "s1" <> "s2") by discriminate.
  split; [exact H|].
  apply (save_session_keeps_other_records "s1" "s2" Scenario.busy_session H).
Defined.

Lemma log_message_with_session_appends_last_witness :
  conversation_log (session_of Scenario.busy_session "s1")
  = PList [PDict Scenario2.hello_entry]
  /\ sessions_data
       (snd (log_message_with_session "2025-01-01 10:00:05" "s1" "assistant" "hi"
               Scenario.busy_session)) !! "s1"
     = Some (Session
               (onboarding_state (session_of Scenario.busy_session "s1"))
               (PList ([PDict Scenario2.hello_entry]
                       ++ [message_entry "assistant" "hi" "2025-01-01 10:00:05"]))).
Proof.
  split; [reflexivity|].
  apply (log_message_with_session_appends_last "2025-01-01 10:00:05" "s1"
           "assistant" "hi" Scenario.busy_session
           [PDict Scenario2.hello_entry] eq_refl).
Defined.

Lemma log_message_on_broken_log_witness :
  (forall l, conversation_log (session_of Scenario2.broken_log_session "s1")
             <> PList l)
  /\ fst (log_message_with_session "2025-01-01 10:00:05" "s1" "user" "hi"
            Scenario2.broken_log_session)
     = Ret "Failed to log message: 'NoneType' object has no attribute 'append'".
Proof.
  assert (H : forall l,
             conversation_log (session_of Scenario2.broken_log_session "s1")
             <> PList l) by (intros l; discriminate).
  split; [exact H|].
  pose proof (log_message_on_broken_log "2025-01-01 10:00:05" "s1" "user" "hi"
                Scenario2.broken_log_session H) as P.
  cbv zeta in P. destruct P as [P _]. exact P.
Defined.


Lemma summary_lists_stored_field_witness :
  Sample.email_ok "" = false
  /\ ~ In "" Sample.country_names
  /\ is_field "phone"
  /\ fst (validate_field Sample.email_ok Sample.country_names
            Sample.validation_error_str "phone" "+14155551234"
            Scenario.busy_session)
     = Ret ("Valid " +:+ "phone" +:+ ": " +:+ "+14155551234")
  /\ fst (store_field Sample.email_ok Sample.country_names
            Sample.validation_error_str "phone" "+14155551234"
            Scenario.busy_session)
     = Ret "Phone stored successfully: +14155551234".
Proof.
  assert (He : Sample.email_ok "" = false) by reflexivity.
  assert (Hc : ~ In "" Sample.country_names).
  { simpl. intros [H|[H|[H|[H|[]]]]]; discriminate H. }
  assert (Hf : is_field "phone") by (unfold is_field; auto).
  assert (Hv : fst (validate_field Sample.email_ok Sample.country_names
                      Sample.validation_error_str "phone" "+14155551234"
                      Scenario.busy_session)
               = Ret ("Valid " +:+ "phone" +:+ ": " +:+ "+14155551234")).
  { rewrite validate_field_eq. reflexivity. }
  split; [exact He|]. split; [exact Hc|]. split; [exact Hf|]. split; [exact Hv|].
  apply (summary_lists_stored_field Sample.email_ok Sample.country_names
           Sample.validation_error_str Sample.py_repr He Hc
           "phone" "+14155551234" Scenario.busy_session Hf Hv).
Defined.

Lemma conversation_history_numbers_entries_witness :
  conversation_log
    (session_of Scenario.busy_session (current_session_id Scenario.busy_session))
  = PList (List.map PDict [Scenario2.hello_entry])
  /\ exists lines,
       fst (get_conversation_history Sample.py_repr Scenario.busy_session)
       = Ret ("Conversation history (" +:+ decimal 1 +:+ " messages):"
              +:+ newline +:+ Str.join newline lines)
       /\ lines !! 0 = Some "1. [user] hello (at 2025-01-01 10:00:00)".
Proof.
  split; [reflexivity|].
  destruct (conversation_history_numbers_entries Sample.py_repr
              Scenario.busy_session [Scenario2.hello_entry] eq_refl)
    as [_ H].
  destruct H as (lines & Hr & _ & _ & Hk); [discriminate|].
  exists lines. split; [exact Hr|].
  apply (Hk 0 "user" "hello" "2025-01-01 10:00:00"). reflexivity.
Defined.

Lemma store_field_keeps_shape_witness :
  onboarding_state
    (session_of Scenario.busy_session (current_session_id Scenario.busy_session))
  = PDict [("name", PStr "Al"); ("email", PStr "al@example.com");
           ("phone", PNone); ("country", PStr "Canada")]
  /\ exists d',
       onboarding_state
         (session_of
            (snd (store_field Sample.email_ok Sample.country_names
                    Sample.validation_error_str "phone" "+14155551234"
                    Scenario.busy_session)) "s1")
       = PDict d'
       /\ keys d' = ["name"; "email"; "phone"; "country"].
Proof.
  split; [reflexivity|].
  destruct (store_field_keeps_shape Sample.email_ok Sample.country_names
              Sample.validation_error_str "phone" "+14155551234"
              Scenario.busy_session _ eq_refl)
    as (d' & H1 & H2 & _).
  exists d'. split; [exact H1|exact H2].
Defined.

Lemma invalid_field_blocks_the_others_witness :
  rejected
    (fst (validate_field Sample.email_ok Sample.country_names
            Sample.validation_error_str "email" "nobody"
            (fresh_process Sample.no_faults)))
  /\ Py.dict_lookup "email"
       [("name", PNone); ("email", PStr "nobody");
        ("phone", PNone); ("country", PNone)] = Some (PStr "nobody")
  /\ refused "name"
       (fst (store_field Sample.email_ok Sample.country_names
               Sample.validation_error_str "name" "Al"
               Scenario2.invalid_email_session)).
Proof.
  assert (H : rejected
                (fst (validate_field Sample.email_ok Sample.country_names
                        Sample.validation_error_str "email" "nobody"
                        (fresh_process Sample.no_faults)))).
  { rewrite validate_field_eq. reflexivity. }
  split; [exact H|]. split; [reflexivity|].
  apply (invalid_field_blocks_the_others Sample.email_ok Sample.country_names
           Sample.validation_error_str "name" "email" "Al" "nobody"
           (fresh_process Sample.no_faults) Scenario2.invalid_email_session
           [("name", PNone); ("email", PStr "nobody");
            ("phone", PNone); ("country", PNone)]).
  - unfold is_field. auto.
  - reflexivity.
  - exact H.
  - reflexivity.
  - reflexivity.
  - discriminate.
Defined.

Lemma queries_survive_restart_witness :
  conversation_log (session_of Scenario.busy_session "s1")
  = PList [PDict Scenario2.hello_entry]
  /\ fst (get_current_state Sample.py_repr
            (snd (load_session "s1"
                    (snd (set_current_session_id "s1"
                            (restart (snd (save_current_session
                                             Scenario.busy_session))))))))
     = fst (get_current_state Sample.py_repr Scenario.busy_session).
Proof.
  split; [reflexivity|].
  apply (queries_survive_restart Sample.py_repr Scenario.busy_session
           [PDict Scenario2.hello_entry] eq_refl eq_refl eq_refl).
Defined.


Lemma speech_hooks_log_any_text_witness :
  conversation_log (session_of Scenario.busy_session "s1")
  = PList [PDict Scenario2.hello_entry]
  /\ session_of
       (snd (on_user_speech_end "s1" "t1" "" Scenario.busy_session)) "s1"
     = Session (onboarding_state (session_of Scenario.busy_session "s1"))
         (PList ([PDict Scenario2.hello_entry] ++ [message_entry "user" "" "t1"])).
Proof.
  split; [reflexivity|].
  apply (speech_hooks_log_any_text "s1" "t1" "" Scenario2.remote_assistant
           Scenario.busy_session [PDict Scenario2.hello_entry] eq_refl).
Defined.

Lemma unknown_field_is_turned_down_witness :
  onboarding_state
    (session_of Scenario.busy_session (current_session_id Scenario.busy_session))
  = onboarding_fields (PStr "Al") (PStr "al@example.com") PNone (PStr "Canada")
  /\ ~ is_field "Name"
  /\ fst (store_field Sample.email_ok Sample.country_names
            Sample.validation_error_str "Name" "Al" Scenario.busy_session)
     = Ret (invalid_field_message "Name").
Proof.
  assert (H : ~ is_field "Name").
  { unfold is_field. intros [H|[H|[H|H]]]; discriminate H. }
  split; [reflexivity|]. split; [exact H|].
  apply (unknown_field_is_turned_down Sample.email_ok Sample.country_names
           Sample.validation_error_str "Name" "Al" Scenario.busy_session
           _ _ _ _ eq_refl H).
Defined.

Lemma country_check_ignores_letter_case_witness :
  Str.lower "cAnAdA" = Str.lower "Canada"
  /\ (fst (validate_field Sample.email_ok Sample.country_names
             Sample.validation_error_str "country" "cAnAdA" Scenario.busy_session)
      = Ret "Valid country: cAnAdA"
      <-> fst (validate_field Sample.email_ok Sample.country_names
                 Sample.validation_error_str "country" "Canada"
                 Scenario.busy_session)
          = Ret "Valid country: Canada").
Proof.
  split; [reflexivity|].
  apply (country_check_ignores_letter_case Sample.email_ok Sample.country_names
           Sample.validation_error_str Scenario.busy_session).
  reflexivity.
Defined.

